(** * MedicalChatBot: the analysis flows and the analysis-record store

    A shallow embedding of
    - [src/ai/flows/*.ts]: the five Genkit flows and the default back-fill
      each of them applies to the model's output, and
    - [src/services/firebaseService.ts]: the two record stores (the Firestore
      collection and the [localStorage] array per user),
    followed by the properties of the specification that concern them.

    JavaScript strings are sequences of UTF-16 code units; promises are
    modelled by their settlement ([Returned] for a fulfilled promise or a
    normal return, [Raised] for a rejection or a throw).  The console is
    not modelled. *)

From Stdlib Require Import ZArith List Ascii String DecimalString DecimalZ
  DecimalPos.
From stdpp Require Import gmap strings list sorting.

Local Open Scope Z_scope.

(** ** JavaScript values *)

Definition jsstring : Type := list N.

(** An ASCII string literal of the source, as code units. *)
Definition lit (s : string) : jsstring :=
  map N_of_ascii (list_ascii_of_string s).

(** [String(n)] for an integral number. *)
Definition decimal (z : Z) : jsstring :=
  lit (NilZero.string_of_int (Z.to_int z)).

(** What a [throw] carries: an instance of [Error] (with its [name] and
    [message]), or any other value (kept as [String(value)]). *)
Inductive Thrown : Type :=
| ErrorValue (name message : jsstring)
| OtherValue (text : jsstring).

Definition new_Error (message : jsstring) : Thrown :=
  ErrorValue (lit "Error") message.

Definition new_TypeError (message : jsstring) : Thrown :=
  ErrorValue (lit "TypeError") message.

Inductive outcome (A : Type) : Type :=
| Returned (a : A)
| Raised (e : Thrown).

Arguments Returned {A} a.
Arguments Raised {A} e.

#[export] Instance outcome_ret : MRet outcome := fun A a => Returned a.

#[export] Instance outcome_bind : MBind outcome := fun A B k m =>
  match m with
  | Returned a => k a
  | Raised e => Raised e
  end.

(** [try { body } catch (error) { handler }] *)
Definition try_catch {A : Type} (body : outcome A) (handler : Thrown -> outcome A)
  : outcome A :=
  match body with
  | Returned a => Returned a
  | Raised e => handler e
  end.

(** A property is [None] when it is [undefined] or [null]; the source treats
    both alike ([!x], [x ?? d], [Array.isArray(x)]). *)

(** Truthiness of a string property: absent and the empty string are falsy. *)
Definition truthy_str (x : option jsstring) : bool :=
  match x with
  | Some (_ :: _) => true
  | _ => false
  end.

(** Truthiness of an array or enum-tag property: only absence is falsy.
    For an array property this is also [Array.isArray(x)]. *)
Definition present {A : Type} (x : option A) : bool :=
  match x with
  | Some _ => true
  | None => false
  end.

(** [x ?? d] *)
Definition nullish {A : Type} (x : option A) (d : A) : option A :=
  match x with
  | Some v => Some v
  | None => Some d
  end.

(** [x || d] on a string property *)
Definition or_else (x : option jsstring) (d : jsstring) : option jsstring :=
  if truthy_str x then x else Some d.

(** [x && x.length > 0 ? x : d] on an array property *)
Definition nonempty_or {A : Type} (x : option (list A)) (d : list A)
  : option (list A) :=
  match x with
  | Some (v :: l) => Some (v :: l)
  | _ => Some d
  end.

(** [x.length]: reading a property of [undefined] throws a [TypeError]. *)
Definition length_of {A : Type} (x : option (list A)) : outcome nat :=
  match x with
  | Some l => Returned (length l)
  | None =>
      Raised (new_TypeError
                (lit "Cannot read properties of undefined (reading 'length')"))
  end.

Definition null_output_message : jsstring :=
  lit "Received null output from the AI model.".

Definition General_Practitioner : jsstring := lit "General Practitioner".

(** ** The flows *)

(** [IndianMedicalRecommendationSchema], the same in every flow file. *)
Record IndianMedicalRecommendation : Type := {
  doctorName : jsstring;
  hospitalName : jsstring;
  phoneNumber : option jsstring;
  specialty : jsstring
}.

(** *** [checkSymptomsFlow] (mental-health-flow.ts, second document) *)
Module CheckSymptoms.

Record Input : Type := {
  symptoms : jsstring;
  userId : jsstring
}.

Inductive Urgency : Type := Low | Medium | High.

Record Output : Type := {
  potentialConditions : option (list jsstring);
  urgency : option Urgency;
  urgencyReasoning : option jsstring;
  suggestedNextSteps : option (list jsstring);
  doctorRecommendations : option (list jsstring);
  indianMedicalRecommendations : option (list IndianMedicalRecommendation)
}.

Definition set_potentialConditions v (o : Output) : Output :=
  {| potentialConditions := v; urgency := urgency o;
     urgencyReasoning := urgencyReasoning o;
     suggestedNextSteps := suggestedNextSteps o;
     doctorRecommendations := doctorRecommendations o;
     indianMedicalRecommendations := indianMedicalRecommendations o |}.

Definition set_urgency v (o : Output) : Output :=
  {| potentialConditions := potentialConditions o; urgency := v;
     urgencyReasoning := urgencyReasoning o;
     suggestedNextSteps := suggestedNextSteps o;
     doctorRecommendations := doctorRecommendations o;
     indianMedicalRecommendations := indianMedicalRecommendations o |}.

Definition set_urgencyReasoning v (o : Output) : Output :=
  {| potentialConditions := potentialConditions o; urgency := urgency o;
     urgencyReasoning := v;
     suggestedNextSteps := suggestedNextSteps o;
     doctorRecommendations := doctorRecommendations o;
     indianMedicalRecommendations := indianMedicalRecommendations o |}.

Definition set_suggestedNextSteps v (o : Output) : Output :=
  {| potentialConditions := potentialConditions o; urgency := urgency o;
     urgencyReasoning := urgencyReasoning o;
     suggestedNextSteps := v;
     doctorRecommendations := doctorRecommendations o;
     indianMedicalRecommendations := indianMedicalRecommendations o |}.

Definition set_doctorRecommendations v (o : Output) : Output :=
  {| potentialConditions := potentialConditions o; urgency := urgency o;
     urgencyReasoning := urgencyReasoning o;
     suggestedNextSteps := suggestedNextSteps o;
     doctorRecommendations := v;
     indianMedicalRecommendations := indianMedicalRecommendations o |}.

Definition set_indianMedicalRecommendations v (o : Output) : Output :=
  {| potentialConditions := potentialConditions o; urgency := urgency o;
     urgencyReasoning := urgencyReasoning o;
     suggestedNextSteps := suggestedNextSteps o;
     doctorRecommendations := doctorRecommendations o;
     indianMedicalRecommendations := v |}.

(** The condition of the first [if]. *)
Definition missing_fields (output : Output) : bool :=
  negb (present (potentialConditions output))
  || negb (present (urgency output))
  || negb (truthy_str (urgencyReasoning output))
  || negb (present (suggestedNextSteps output))
  || negb (present (doctorRecommendations output)).

(** The body of the first [if], one assignment after the other. *)
Definition use_defaults (output : Output) : Output :=
  let output :=
    set_potentialConditions (nullish (potentialConditions output) []) output in
  let output := set_urgency (nullish (urgency output) Low) output in
  let output :=
    set_urgencyReasoning
      (nullish (urgencyReasoning output)
               (lit "Could not determine urgency reasoning.")) output in
  let output :=
    set_suggestedNextSteps
      (nullish (suggestedNextSteps output)
               [lit "Consult a healthcare professional."]) output in
  set_doctorRecommendations
    (nonempty_or (doctorRecommendations output) [General_Practitioner]) output.

(** The flow body after the null check. *)
Definition normalizeOutput (output : Output) : outcome Output :=
  let output := if missing_fields output then use_defaults output else output in
  len ← length_of (doctorRecommendations output);
  let output :=
    if Nat.eqb len 0
    then set_doctorRecommendations (Some [General_Practitioner]) output
    else output in
  let output :=
    set_indianMedicalRecommendations
      (nullish (indianMedicalRecommendations output) []) output in
  Returned output.

Definition checkSymptomsFlow
    (symptomCheckerPrompt : Input -> outcome (option Output))
    (input : Input) : outcome Output :=
  output ← symptomCheckerPrompt input;
  match output with
  | None => Raised (new_Error null_output_message)
  | Some output => normalizeOutput output
  end.

End CheckSymptoms.

(** *** [assessMentalHealthFlow] (mental-health-flow.ts, first document) *)
Module AssessMentalHealth.

Record Input : Type := {
  description : jsstring;
  userId : jsstring
}.

Record Output : Type := {
  assessment : option jsstring;
  recommendations : option (list jsstring);
  resourceSuggestions : option (list jsstring);
  crisisWarning : option jsstring;
  indianMedicalRecommendations : option (list IndianMedicalRecommendation)
}.

Definition set_assessment v (o : Output) : Output :=
  {| assessment := v; recommendations := recommendations o;
     resourceSuggestions := resourceSuggestions o;
     crisisWarning := crisisWarning o;
     indianMedicalRecommendations := indianMedicalRecommendations o |}.

Definition set_recommendations v (o : Output) : Output :=
  {| assessment := assessment o; recommendations := v;
     resourceSuggestions := resourceSuggestions o;
     crisisWarning := crisisWarning o;
     indianMedicalRecommendations := indianMedicalRecommendations o |}.

Definition set_resourceSuggestions v (o : Output) : Output :=
  {| assessment := assessment o; recommendations := recommendations o;
     resourceSuggestions := v;
     crisisWarning := crisisWarning o;
     indianMedicalRecommendations := indianMedicalRecommendations o |}.

Definition set_crisisWarning v (o : Output) : Output :=
  {| assessment := assessment o; recommendations := recommendations o;
     resourceSuggestions := resourceSuggestions o;
     crisisWarning := v;
     indianMedicalRecommendations := indianMedicalRecommendations o |}.

Definition set_indianMedicalRecommendations v (o : Output) : Output :=
  {| assessment := assessment o; recommendations := recommendations o;
     resourceSuggestions := resourceSuggestions o;
     crisisWarning := crisisWarning o;
     indianMedicalRecommendations := v |}.

Definition professional_fallback : list jsstring :=
  [General_Practitioner; lit "Mental Health Professional"].

Definition missing_fields (output : Output) : bool :=
  negb (truthy_str (assessment output))
  || negb (present (recommendations output))
  || negb (present (resourceSuggestions output)).

Definition use_defaults (output : Output) : Output :=
  let output :=
    set_assessment
      (nullish (assessment output)
               (lit "Could not generate a preliminary assessment.")) output in
  let output :=
    set_recommendations
      (nullish (recommendations output)
               [lit "Consider practicing self-care and reaching out for support."])
      output in
  let output :=
    set_resourceSuggestions
      (nonempty_or (resourceSuggestions output) professional_fallback) output in
  set_crisisWarning (crisisWarning output) output.

Definition normalizeOutput (output : Output) : outcome Output :=
  let output := if missing_fields output then use_defaults output else output in
  len ← length_of (resourceSuggestions output);
  let output :=
    if Nat.eqb len 0
    then set_resourceSuggestions (Some professional_fallback) output
    else output in
  let output :=
    set_indianMedicalRecommendations
      (nullish (indianMedicalRecommendations output) []) output in
  Returned output.

Definition assessMentalHealthFlow
    (mentalHealthPrompt : Input -> outcome (option Output))
    (input : Input) : outcome Output :=
  output ← mentalHealthPrompt input;
  match output with
  | None => Raised (new_Error null_output_message)
  | Some output => normalizeOutput output
  end.

End AssessMentalHealth.

(** *** [analyzeDietFlow] (mental-health-flow.ts, third document) *)
Module AnalyzeDiet.

Record Input : Type := {
  description : option jsstring;
  photoDataUri : option jsstring;
  userId : jsstring
}.

Record Output : Type := {
  nutritionalBreakdown : option jsstring;
  healthObservations : option (list jsstring);
  improvementSuggestions : option (list jsstring);
  professionalRecommendation : option jsstring;
  indianMedicalRecommendations : option (list IndianMedicalRecommendation)
}.

Definition set_nutritionalBreakdown v (o : Output) : Output :=
  {| nutritionalBreakdown := v; healthObservations := healthObservations o;
     improvementSuggestions := improvementSuggestions o;
     professionalRecommendation := professionalRecommendation o;
     indianMedicalRecommendations := indianMedicalRecommendations o |}.

Definition set_healthObservations v (o : Output) : Output :=
  {| nutritionalBreakdown := nutritionalBreakdown o; healthObservations := v;
     improvementSuggestions := improvementSuggestions o;
     professionalRecommendation := professionalRecommendation o;
     indianMedicalRecommendations := indianMedicalRecommendations o |}.

Definition set_improvementSuggestions v (o : Output) : Output :=
  {| nutritionalBreakdown := nutritionalBreakdown o;
     healthObservations := healthObservations o;
     improvementSuggestions := v;
     professionalRecommendation := professionalRecommendation o;
     indianMedicalRecommendations := indianMedicalRecommendations o |}.

Definition set_professionalRecommendation v (o : Output) : Output :=
  {| nutritionalBreakdown := nutritionalBreakdown o;
     healthObservations := healthObservations o;
     improvementSuggestions := improvementSuggestions o;
     professionalRecommendation := v;
     indianMedicalRecommendations := indianMedicalRecommendations o |}.

Definition set_indianMedicalRecommendations v (o : Output) : Output :=
  {| nutritionalBreakdown := nutritionalBreakdown o;
     healthObservations := healthObservations o;
     improvementSuggestions := improvementSuggestions o;
     professionalRecommendation := professionalRecommendation o;
     indianMedicalRecommendations := v |}.

Definition consult_dietitian : jsstring :=
  lit "Consult a registered dietitian or healthcare provider for personalized advice.".

Definition missing_fields (output : Output) : bool :=
  negb (truthy_str (nutritionalBreakdown output))
  || negb (present (healthObservations output))
  || negb (present (improvementSuggestions output))
  || negb (truthy_str (professionalRecommendation output)).

Definition use_defaults (output : Output) : Output :=
  let output :=
    set_nutritionalBreakdown
      (nullish (nutritionalBreakdown output)
               (lit "Could not estimate nutritional breakdown.")) output in
  let output :=
    set_healthObservations (nullish (healthObservations output) []) output in
  let output :=
    set_improvementSuggestions (nullish (improvementSuggestions output) []) output in
  set_professionalRecommendation
    (nullish (professionalRecommendation output) consult_dietitian) output.

Definition normalizeOutput (output : Output) : outcome Output :=
  let output := if missing_fields output then use_defaults output else output in
  let output :=
    if negb (truthy_str (professionalRecommendation output))
    then set_professionalRecommendation (Some consult_dietitian) output
    else output in
  let output :=
    set_indianMedicalRecommendations
      (nullish (indianMedicalRecommendations output) []) output in
  Returned output.

Definition analyzeDietFlow
    (dietaryAnalysisPrompt : Input -> outcome (option Output))
    (input : Input) : outcome Output :=
  let promptInput :=
    {| description := description input;
       photoDataUri := photoDataUri input;
       userId := userId input |} in
  output ← dietaryAnalysisPrompt promptInput;
  match output with
  | None => Raised (new_Error null_output_message)
  | Some output => normalizeOutput output
  end.

End AnalyzeDiet.

(** *** [analyzeImageFlow] (analyze-image.ts, first document) *)
Module AnalyzeImage.

Record Input : Type := {
  photoDataUri : jsstring;
  description : jsstring;
  userId : jsstring
}.

Record Output : Type := {
  assessment : option jsstring;
  recommendations : option jsstring;
  doctorRecommendations : option (list jsstring);
  indianMedicalRecommendations : option (list IndianMedicalRecommendation)
}.

Definition set_assessment v (o : Output) : Output :=
  {| assessment := v; recommendations := recommendations o;
     doctorRecommendations := doctorRecommendations o;
     indianMedicalRecommendations := indianMedicalRecommendations o |}.

Definition set_recommendations v (o : Output) : Output :=
  {| assessment := assessment o; recommendations := v;
     doctorRecommendations := doctorRecommendations o;
     indianMedicalRecommendations := indianMedicalRecommendations o |}.

Definition set_doctorRecommendations v (o : Output) : Output :=
  {| assessment := assessment o; recommendations := recommendations o;
     doctorRecommendations := v;
     indianMedicalRecommendations := indianMedicalRecommendations o |}.

Definition set_indianMedicalRecommendations v (o : Output) : Output :=
  {| assessment := assessment o; recommendations := recommendations o;
     doctorRecommendations := doctorRecommendations o;
     indianMedicalRecommendations := v |}.

Definition missing_fields (output : Output) : bool :=
  negb (truthy_str (assessment output))
  || negb (truthy_str (recommendations output))
  || negb (present (doctorRecommendations output)).

Definition use_defaults (output : Output) : Output :=
  let output :=
    set_assessment
      (or_else (assessment output) (lit "Assessment unavailable.")) output in
  let output :=
    set_recommendations
      (or_else (recommendations output)
               (lit "Consult a healthcare professional.")) output in
  set_doctorRecommendations
    (nonempty_or (doctorRecommendations output) [General_Practitioner]) output.

Definition normalizeOutput (output : Output) : outcome Output :=
  let output := if missing_fields output then use_defaults output else output in
  len ← length_of (doctorRecommendations output);
  let output :=
    if Nat.eqb len 0
    then set_doctorRecommendations (Some [General_Practitioner]) output
    else output in
  let output :=
    set_indianMedicalRecommendations
      (nullish (indianMedicalRecommendations output) []) output in
  Returned output.

Definition analyzeImageFlow
    (analyzeImagePrompt : Input -> outcome (option Output))
    (input : Input) : outcome Output :=
  output ← analyzeImagePrompt input;
  match output with
  | None => Raised (new_Error null_output_message)
  | Some output => normalizeOutput output
  end.

End AnalyzeImage.

(** *** [voiceDiagnosisFlow] (analyze-image.ts, second document) *)
Module VoiceDiagnosis.

Record Input : Type := {
  symptomsDescription : option jsstring;
  audioDataUri : option jsstring;
  userId : jsstring
}.

Record Output : Type := {
  potentialConditions : option (list jsstring);
  clarifyingQuestions : option (list jsstring);
  doctorRecommendations : option (list jsstring);
  indianMedicalRecommendations : option (list IndianMedicalRecommendation)
}.

Definition set_potentialConditions v (o : Output) : Output :=
  {| potentialConditions := v; clarifyingQuestions := clarifyingQuestions o;
     doctorRecommendations := doctorRecommendations o;
     indianMedicalRecommendations := indianMedicalRecommendations o |}.

Definition set_clarifyingQuestions v (o : Output) : Output :=
  {| potentialConditions := potentialConditions o; clarifyingQuestions := v;
     doctorRecommendations := doctorRecommendations o;
     indianMedicalRecommendations := indianMedicalRecommendations o |}.

Definition set_doctorRecommendations v (o : Output) : Output :=
  {| potentialConditions := potentialConditions o;
     clarifyingQuestions := clarifyingQuestions o;
     doctorRecommendations := v;
     indianMedicalRecommendations := indianMedicalRecommendations o |}.

Definition set_indianMedicalRecommendations v (o : Output) : Output :=
  {| potentialConditions := potentialConditions o;
     clarifyingQuestions := clarifyingQuestions o;
     doctorRecommendations := doctorRecommendations o;
     indianMedicalRecommendations := v |}.

(** The request the schema's [refine] accepts: one of the two is truthy. *)
Definition valid_input (input : Input) : bool :=
  truthy_str (symptomsDescription input) || truthy_str (audioDataUri input).

(** The object returned without calling the model. *)
Definition no_symptoms_output : Output :=
  {| potentialConditions := Some [];
     clarifyingQuestions := Some [lit "No symptoms were provided to analyze."];
     doctorRecommendations := Some [General_Practitioner];
     indianMedicalRecommendations := Some [] |}.

Definition missing_fields (output : Output) : bool :=
  negb (present (potentialConditions output))
  || negb (present (clarifyingQuestions output))
  || negb (present (doctorRecommendations output)).

Definition use_defaults (output : Output) : Output :=
  let output :=
    set_potentialConditions (nullish (potentialConditions output) []) output in
  let output :=
    set_clarifyingQuestions
      (nullish (clarifyingQuestions output)
               [lit "Could not generate questions."]) output in
  set_doctorRecommendations
    (nonempty_or (doctorRecommendations output) [General_Practitioner]) output.

Definition normalizeOutput (output : Output) : outcome Output :=
  let output := if missing_fields output then use_defaults output else output in
  len ← length_of (doctorRecommendations output);
  let output :=
    if Nat.eqb len 0
    then set_doctorRecommendations (Some [General_Practitioner]) output
    else output in
  let output :=
    set_indianMedicalRecommendations
      (nullish (indianMedicalRecommendations output) []) output in
  Returned output.

(** [promptInput]: the user id and the audio when there is one, else the
    text; there is none when the request has neither. *)
Definition promptInput (input : Input) : option Input :=
  let promptInput :=
    {| symptomsDescription := None; audioDataUri := None;
       userId := userId input |} in
  if truthy_str (audioDataUri input) then
    Some {| symptomsDescription := symptomsDescription promptInput;
            audioDataUri := audioDataUri input;
            userId := userId promptInput |}
  else if truthy_str (symptomsDescription input) then
    Some {| symptomsDescription := symptomsDescription input;
            audioDataUri := audioDataUri promptInput;
            userId := userId promptInput |}
  else None.

Definition voiceDiagnosisFlow
    (prompt : Input -> outcome (option Output))
    (input : Input) : outcome Output :=
  match promptInput input with
  | None => Returned no_symptoms_output
  | Some promptInput =>
      output ← prompt promptInput;
      match output with
      | None => Raised (new_Error null_output_message)
      | Some output => normalizeOutput output
      end
  end.

End VoiceDiagnosis.

(** ** The analysis-record store (services/firebaseService.ts) *)

Inductive AnalysisType : Type :=
| imageAnalyses
| voiceDiagnoses
| symptomChecks
| mentalHealthAssessments
| dietaryAnalyses.

(** The tag as the string it is at run time. *)
Definition type_name (t : AnalysisType) : jsstring :=
  match t with
  | imageAnalyses => lit "imageAnalyses"
  | voiceDiagnoses => lit "voiceDiagnoses"
  | symptomChecks => lit "symptomChecks"
  | mentalHealthAssessments => lit "mentalHealthAssessments"
  | dietaryAnalyses => lit "dietaryAnalyses"
  end.

(** [error instanceof Error ? error.message : String(error)] *)
Definition error_text (error : Thrown) : jsstring :=
  match error with
  | ErrorValue _ message => message
  | OtherValue text => text
  end.

(** Truthiness of a string value. *)
Definition truthy (s : jsstring) : bool :=
  match s with
  | [] => false
  | _ :: _ => true
  end.

(** The code units [String.prototype.trim] strips: WhiteSpace (TAB, VT, FF,
    ZWNBSP and the space separators) and LineTerminator (LF, CR, LS, PS). *)
Definition is_white_space (c : N) : bool :=
  ((9 <=? c) && (c <=? 13) || (c =? 32) || (c =? 160) || (c =? 5760)
   || (8192 <=? c) && (c <=? 8202) || (c =? 8232) || (c =? 8233)
   || (c =? 8239) || (c =? 8287) || (c =? 12288) || (c =? 65279))%N.

Fixpoint trim_start (s : jsstring) : jsstring :=
  match s with
  | [] => []
  | c :: s' => if is_white_space c then trim_start s' else s
  end.

Definition trim (s : jsstring) : jsstring :=
  rev (trim_start (rev (trim_start s))).

(** [!userId || !userId.trim()] *)
Definition blank (userId : jsstring) : bool :=
  negb (truthy userId) || negb (truthy (trim userId)).

(** [Array.prototype.sort(compareFn)]: a stable sort (ECMAScript 2019), here
    insertion from the right; [compareFn a b <= 0] keeps [a] before [b]. *)
Fixpoint insert_sorted {A : Type} (compareFn : A -> A -> Z) (x : A) (l : list A)
  : list A :=
  match l with
  | [] => [x]
  | y :: l' =>
      if compareFn x y <=? 0 then x :: y :: l'
      else y :: insert_sorted compareFn x l'
  end.

Definition Array_sort {A : Type} (compareFn : A -> A -> Z) (l : list A) : list A :=
  foldr (insert_sorted compareFn) [] l.

(** The comparator lets [a] stand before [b]. *)
Definition may_precede {A : Type} (compareFn : A -> A -> Z) (a b : A) : Prop :=
  compareFn a b <= 0.

(** Code-unit order of two strings, the order of Firestore document ids. *)
Fixpoint id_leb (a b : jsstring) : bool :=
  match a, b with
  | [], _ => true
  | _ :: _, [] => false
  | x :: a', y :: b' => (x <? y)%N || (x =? y)%N && id_leb a' b'
  end.

(** *** The Firestore backend (first document of the file) *)
Module Firestore.

(** [timestamp] is a point in time in epoch milliseconds: the [Timestamp] a
    document holds and the [Date] that [toDate()] makes of it. *)
Record AnalysisRecord (T : Type) : Type := {
  id : jsstring;
  userId : jsstring;
  analysisType : AnalysisType;
  timestamp : Z;
  result : T
}.

Arguments id {T} _.
Arguments userId {T} _.
Arguments analysisType {T} _.
Arguments timestamp {T} _.
Arguments result {T} _.

(** A document of the collection ['analyses']: [doc.id] and [doc.data()]. *)
Record Document (T : Type) : Type := {
  doc_id : jsstring;
  data_userId : jsstring;
  data_analysisType : AnalysisType;
  data_timestamp : Z;
  data_result : T
}.

Arguments doc_id {T} _.
Arguments data_userId {T} _.
Arguments data_analysisType {T} _.
Arguments data_timestamp {T} _.
Arguments data_result {T} _.

(** What one call meets at the backend: the fault [getDocs] or [addDoc]
    rejects with (if any), [Timestamp.now()], and the id [addDoc] generates. *)
Record Env : Type := {
  fault : option Thrown;
  now : Z;
  auto_id : jsstring
}.

Section WithResult.
Context {T : Type}.

(** The collection, in the order a query without [orderBy] yields its
    documents: ascending document id. *)
Fixpoint place (d : Document T) (analyses : list (Document T))
  : list (Document T) :=
  match analyses with
  | [] => [d]
  | d' :: rest =>
      if id_leb (doc_id d) (doc_id d') then d :: d' :: rest
      else d' :: place d rest
  end.

(** [getDocs(query(analysesRef, where('userId', '==', userId)))] *)
Definition getDocs (env : Env) (analyses : list (Document T)) (userId : jsstring)
  : outcome (list (Document T)) :=
  match fault env with
  | Some e => Raised e
  | None => Returned (filter (fun d => data_userId d = userId) analyses)
  end.

Definition addDoc (env : Env) (analyses : list (Document T)) (d : Document T)
  : outcome (list (Document T)) :=
  match fault env with
  | Some e => Raised e
  | None => Returned (place d analyses)
  end.

Definition getUserAnalyses (env : Env) (analyses : list (Document T))
    (userId : jsstring) : outcome (list (AnalysisRecord T)) :=
  try_catch
    (docs ← getDocs env analyses userId;
     Returned
       (map (fun doc =>
               {| id := doc_id doc;
                  userId := data_userId doc;
                  analysisType := data_analysisType doc;
                  timestamp := data_timestamp doc;
                  result := data_result doc |}) docs))
    (fun error => Raised error).

(** The settlement of the promise and the collection afterwards. *)
Definition saveAnalysis (env : Env) (analyses : list (Document T))
    (userId : jsstring) (analysisType : AnalysisType) (result : T)
  : outcome unit * list (Document T) :=
  let attempt :=
    try_catch
      (addDoc env analyses
         {| doc_id := auto_id env;
            data_userId := userId;
            data_analysisType := analysisType;
            data_timestamp := now env;
            data_result := result |})
      (fun error => Raised error) in
  match attempt with
  | Returned analyses' => (Returned tt, analyses')
  | Raised e => (Raised e, analyses)
  end.

(** A sequence of saves, each with what it meets at the backend. *)
Fixpoint saves (analyses : list (Document T))
    (calls : list (Env * jsstring * AnalysisType * T)) : list (Document T) :=
  match calls with
  | [] => analyses
  | (env, userId, analysisType, result) :: calls' =>
      saves (snd (saveAnalysis env analyses userId analysisType result)) calls'
  end.

End WithResult.

End Firestore.

(** *** The localStorage backend (second document of the file) *)
Module LocalStorage.

(** [timestamp] is the ISO-8601 text of a point in time, kept as the epoch
    milliseconds it denotes ([toISOString] and [new Date(text).getTime()] are
    inverse to each other). *)
Record AnalysisRecord (T : Type) : Type := {
  id : jsstring;
  userId : jsstring;
  analysisType : AnalysisType;
  timestamp : Z;
  result : T
}.

Arguments id {T} _.
Arguments userId {T} _.
Arguments analysisType {T} _.
Arguments timestamp {T} _.
Arguments result {T} _.

(** The host's [JSON.stringify] and [JSON.parse] at the type of the stored
    array.  [JSON_parse] raises where [JSON.parse] throws a [SyntaxError],
    and where the text is that of a value without [sort] (the call
    [analyses.sort] then throws inside the same [try]). *)
Class Json (T : Type) : Type := {
  JSON_stringify : list (AnalysisRecord T) -> jsstring;
  JSON_parse : jsstring -> outcome (list (AnalysisRecord T))
}.

(** Results of type [T] are JSON-serializable: the text of an array is not
    empty and parses back to the array. *)
Class JsonSerializable (T : Type) `{Json T} : Prop := {
  JSON_stringify_truthy : forall l, truthy (JSON_stringify l) = true;
  JSON_parse_stringify : forall l, JSON_parse (JSON_stringify l) = Returned l
}.

(** What one call meets at the host: whether [window] is defined, what
    [localStorage.getItem] and [localStorage.setItem] throw (if they do), the
    two readings of the clock and the text [Math.random] contributes. *)
Record Env : Type := {
  window_defined : bool;
  getItem_fault : option Thrown;
  setItem_fault : option Thrown;
  id_time : Z;
  random_suffix : jsstring;
  stamp_time : Z
}.

Definition getStorageKey (userId : jsstring) : jsstring :=
  lit "userAnalyses_" ++ userId.

Definition required_message : jsstring :=
  lit "User ID is required to save analysis.".

Definition failed_message (error : Thrown) : jsstring :=
  lit "Failed to save analysis result to localStorage: " ++ error_text error.

Definition localStorage_getItem (env : Env) (localStorage : gmap jsstring jsstring)
    (key : jsstring) : outcome (option jsstring) :=
  match getItem_fault env with
  | Some e => Raised e
  | None => Returned (localStorage !! key)
  end.

Definition localStorage_setItem (env : Env) (localStorage : gmap jsstring jsstring)
    (key value : jsstring) : outcome (gmap jsstring jsstring) :=
  match setItem_fault env with
  | Some e => Raised e
  | None => Returned (<[key := value]> localStorage)
  end.

Section WithResult.
Context {T : Type} `{Json T}.

(** [(a, b) => new Date(b.timestamp).getTime() - new Date(a.timestamp).getTime()] *)
Definition newest_first (a b : AnalysisRecord T) : Z :=
  timestamp b - timestamp a.

Definition getUserAnalyses (env : Env) (localStorage : gmap jsstring jsstring)
    (userId : jsstring) : outcome (list (AnalysisRecord T)) :=
  if negb (window_defined env) then Returned []
  else if blank userId then Returned []
  else
    let storageKey := getStorageKey userId in
    try_catch
      (storedData ← localStorage_getItem env localStorage storageKey;
       if truthy_str storedData then
         analyses ← JSON_parse (default [] storedData);
         Returned (Array_sort newest_first analyses)
       else Returned [])
      (fun error => Returned []).

(** [newAnalysis] *)
Definition newAnalysis (env : Env) (userId : jsstring)
    (analysisType : AnalysisType) (result : T) : AnalysisRecord T :=
  {| id := type_name analysisType ++ lit "-" ++ decimal (id_time env)
           ++ lit "-" ++ random_suffix env;
     userId := userId;
     analysisType := analysisType;
     result := result;
     timestamp := stamp_time env |}.

(** An invocation of [saveAnalysisResult] runs up to its [await] at once;
    what follows the [await] runs later, as a job of its own. *)
Inductive Invocation : Type :=
| Settled (settlement : outcome unit)
| Awaiting (env : Env) (userId : jsstring) (analysisType : AnalysisType)
    (result : T) (awaited : outcome (list (AnalysisRecord T))).

(** Up to [await getUserAnalyses(userId)]: the guards, and the call, which
    reads the storage before the caller is suspended. *)
Definition save_begin (env : Env) (localStorage : gmap jsstring jsstring)
    (userId : jsstring) (analysisType : AnalysisType) (result : T) : Invocation :=
  if negb (window_defined env) then Settled (Returned tt)
  else if blank userId then Settled (Raised (new_Error required_message))
  else Awaiting env userId analysisType result
         (getUserAnalyses env localStorage userId).

(** From the [await] on, inside the [try]. *)
Definition save_resume (env : Env) (localStorage : gmap jsstring jsstring)
    (userId : jsstring) (analysisType : AnalysisType) (result : T)
    (awaited : outcome (list (AnalysisRecord T)))
  : outcome unit * gmap jsstring jsstring :=
  let storageKey := getStorageKey userId in
  let attempt :=
    try_catch
      (existingAnalyses ← awaited;
       let updatedAnalyses :=
         newAnalysis env userId analysisType result :: existingAnalyses in
       localStorage_setItem env localStorage storageKey
         (JSON_stringify updatedAnalyses))
      (fun error => Raised (new_Error (failed_message error))) in
  match attempt with
  | Returned localStorage' => (Returned tt, localStorage')
  | Raised e => (Raised e, localStorage)
  end.

(** The settlement of the promise and the storage afterwards, when nothing
    else runs between the two parts. *)
Definition saveAnalysisResult (env : Env) (localStorage : gmap jsstring jsstring)
    (userId : jsstring) (analysisType : AnalysisType) (result : T)
  : outcome unit * gmap jsstring jsstring :=
  match save_begin env localStorage userId analysisType result with
  | Settled settlement => (settlement, localStorage)
  | Awaiting env userId analysisType result awaited =>
      save_resume env localStorage userId analysisType result awaited
  end.

(** A sequence of saves, each complete before the next begins. *)
Fixpoint saves (localStorage : gmap jsstring jsstring)
    (calls : list (Env * jsstring * AnalysisType * T)) : gmap jsstring jsstring :=
  match calls with
  | [] => localStorage
  | (env, userId, analysisType, result) :: calls' =>
      saves (snd (saveAnalysisResult env localStorage userId analysisType result))
        calls'
  end.

(** The job queue of one page: invocations in the order they were made, and
    the storage they share. *)
Record Page : Type := {
  storage : gmap jsstring jsstring;
  invocations : list Invocation
}.

Inductive Job : Type :=
| Invoke (env : Env) (userId : jsstring) (analysisType : AnalysisType) (result : T)
| Resume (n : nat).

Definition step (page : Page) (job : Job) : Page :=
  match job with
  | Invoke env userId analysisType result =>
      {| storage := storage page;
         invocations :=
           invocations page
           ++ [save_begin env (storage page) userId analysisType result] |}
  | Resume n =>
      match invocations page !! n with
      | Some (Awaiting env userId analysisType result awaited) =>
          let '(settlement, localStorage') :=
            save_resume env (storage page) userId analysisType result awaited in
          {| storage := localStorage';
             invocations := <[n := Settled settlement]> (invocations page) |}
      | _ => page
      end
  end.

Definition run (page : Page) (jobs : list Job) : Page :=
  foldl step page jobs.

End WithResult.

End LocalStorage.

(** ** A serialization to run the store on

    The text of an array of records whose results are strings: the decimal
    numeral of the array's code under stdpp's [Countable] numbering.  It
    stands in for the host's JSON in the examples below: it has the two
    properties of [JsonSerializable], which is all the store relies on. *)
Module Numeral.

#[global] Instance AnalysisType_eq_dec : EqDecision AnalysisType.
Proof. solve_decision. Defined.

Definition tag_of (t : AnalysisType) : nat :=
  match t with
  | imageAnalyses => 0
  | voiceDiagnoses => 1
  | symptomChecks => 2
  | mentalHealthAssessments => 3
  | dietaryAnalyses => 4
  end%nat.

Definition of_tag (n : nat) : AnalysisType :=
  match n with
  | 0 => imageAnalyses
  | 1 => voiceDiagnoses
  | 2 => symptomChecks
  | 3 => mentalHealthAssessments
  | _ => dietaryAnalyses
  end%nat.

#[global] Instance AnalysisType_countable : Countable AnalysisType.
Proof. apply (inj_countable' tag_of of_tag). intros []; reflexivity. Defined.

Definition fields (r : LocalStorage.AnalysisRecord jsstring)
  : jsstring * jsstring * AnalysisType * Z * jsstring :=
  (LocalStorage.id r, LocalStorage.userId r, LocalStorage.analysisType r,
   LocalStorage.timestamp r, LocalStorage.result r).

Definition of_fields (f : jsstring * jsstring * AnalysisType * Z * jsstring)
  : LocalStorage.AnalysisRecord jsstring :=
  let '(i, u, a, t, r) := f in
  {| LocalStorage.id := i; LocalStorage.userId := u;
     LocalStorage.analysisType := a; LocalStorage.timestamp := t;
     LocalStorage.result := r |}.

#[global] Instance AnalysisRecord_eq_dec
  : EqDecision (LocalStorage.AnalysisRecord jsstring).
Proof. solve_decision. Defined.

#[global] Instance AnalysisRecord_countable
  : Countable (LocalStorage.AnalysisRecord jsstring).
Proof. apply (inj_countable' fields of_fields). intros []; reflexivity. Defined.

(** The number a decimal numeral denotes. *)
Definition parse_decimal (s : jsstring) : option Z :=
  Z.of_int <$> NilZero.int_of_string (string_of_list_ascii (map ascii_of_N s)).

Definition syntax_error : Thrown :=
  ErrorValue (lit "SyntaxError") (lit "Unexpected token").

#[global] Instance numeral_json : LocalStorage.Json jsstring := {|
  LocalStorage.JSON_stringify l := decimal (Z.pos (encode l));
  LocalStorage.JSON_parse s :=
    match parse_decimal s with
    | Some (Z.pos p) =>
        match decode p with
        | Some l => Returned l
        | None => Raised syntax_error
        end
    | _ => Raised syntax_error
    end
|}.

End Numeral.

(** ** Auxiliary notions of the statements *)

(** A property the response supplies is still there afterwards. *)
Definition kept {A : Type} (before after : option A) : Prop :=
  match before with
  | Some _ => after = before
  | None => True
  end.

(** How a flow settles, given how the call to the model settled: a null
    output is an error, an output is returned (normalized), and a rejection
    of the call is passed on. *)
Definition settles_as {O : Type} (response : outcome (option O))
    (settlement : outcome O) : Prop :=
  match response with
  | Returned None => settlement = Raised (new_Error null_output_message)
  | Returned (Some _) => exists o', settlement = Returned o'
  | Raised e => settlement = Raised e
  end.

(** The order the specification asks of a listing: whenever [a] comes
    before [b], [a] is not older than [b]. *)
Definition newest_first_order {R : Type} (timestamp : R -> Z) (l : list R)
  : Prop :=
  StronglySorted (fun a b => timestamp a >= timestamp b) l.

(** Every key of the storage holds the text of records of its own user. *)
Definition owned {T : Type} `{LocalStorage.Json T}
    (localStorage : gmap jsstring jsstring) : Prop :=
  forall user s,
    localStorage !! LocalStorage.getStorageKey user = Some s ->
    exists l : list (LocalStorage.AnalysisRecord T),
      s = LocalStorage.JSON_stringify l
      /\ Forall (fun r => LocalStorage.userId r = user) l.

(** A page whose storage is [owned] and whose suspended invocations hold
    records of their own user. *)
Definition page_owned {T : Type} `{LocalStorage.Json T}
    (page : LocalStorage.Page (T := T)) : Prop :=
  owned (LocalStorage.storage page)
  /\ Forall
       (fun invocation =>
          match invocation with
          | LocalStorage.Settled _ => True
          | LocalStorage.Awaiting _ user _ _ awaited =>
              forall l, awaited = Returned l ->
                        Forall (fun r => LocalStorage.userId r = user) l
          end)
       (LocalStorage.invocations page).

(** ** Sample data *)

(** A symptom-check response without the two recommendation lists. *)
Definition headache_response : CheckSymptoms.Output :=
  {| CheckSymptoms.potentialConditions := Some [lit "Migraine"; lit "Tension headache"];
     CheckSymptoms.urgency := Some CheckSymptoms.Medium;
     CheckSymptoms.urgencyReasoning := Some (lit "Recurring for a week.");
     CheckSymptoms.suggestedNextSteps := Some [lit "Consult a doctor today."];
     CheckSymptoms.doctorRecommendations := None;
     CheckSymptoms.indianMedicalRecommendations := None |}.

(** A mental-health response whose resource list is empty. *)
Definition stress_response : AssessMentalHealth.Output :=
  {| AssessMentalHealth.assessment := Some (lit "Signs of high stress.");
     AssessMentalHealth.recommendations := Some [lit "Keep a journal."];
     AssessMentalHealth.resourceSuggestions := Some [];
     AssessMentalHealth.crisisWarning := None;
     AssessMentalHealth.indianMedicalRecommendations := None |}.

(** A model that answers every request with the same output. *)
Definition answering {I O : Type} (output : option O) (_ : I)
  : outcome (option O) :=
  Returned output.

Definition spoken_request : VoiceDiagnosis.Input :=
  {| VoiceDiagnosis.symptomsDescription := Some (lit "I have a sore throat.");
     VoiceDiagnosis.audioDataUri := None;
     VoiceDiagnosis.userId := lit "u1" |}.

Definition u1 : jsstring := lit "u1".
Definition u2 : jsstring := lit "u2".

(** What two saves a minute apart and a later read meet at Firestore, and
    a backend that is unavailable. *)
Definition first_save : Firestore.Env :=
  {| Firestore.fault := None; Firestore.now := 1700000000000;
     Firestore.auto_id := lit "AbCdEfGhIjKlMnOpQrSt" |}.

Definition second_save : Firestore.Env :=
  {| Firestore.fault := None; Firestore.now := 1700000060000;
     Firestore.auto_id := lit "ZyXwVuTsRqPoNmLkJiHg" |}.

Definition online : Firestore.Env :=
  {| Firestore.fault := None; Firestore.now := 1700000120000;
     Firestore.auto_id := lit "x0x0x0x0x0x0x0x0x0x0" |}.

Definition unavailable : Thrown :=
  ErrorValue (lit "FirebaseError") (lit "The service is currently unavailable.").

Definition offline : Firestore.Env :=
  {| Firestore.fault := Some unavailable; Firestore.now := 1700000120000;
     Firestore.auto_id := lit "x0x0x0x0x0x0x0x0x0x0" |}.

(** A browser at two moments, a server-side render, a browser whose
    storage is full, and one whose storage may not be read. *)
Definition browser : LocalStorage.Env :=
  {| LocalStorage.window_defined := true;
     LocalStorage.getItem_fault := None;
     LocalStorage.setItem_fault := None;
     LocalStorage.id_time := 1700000000000;
     LocalStorage.random_suffix := lit "k3j9x0q1z";
     LocalStorage.stamp_time := 1700000000000 |}.

Definition browser_later : LocalStorage.Env :=
  {| LocalStorage.window_defined := true;
     LocalStorage.getItem_fault := None;
     LocalStorage.setItem_fault := None;
     LocalStorage.id_time := 1700000060000;
     LocalStorage.random_suffix := lit "p7m2c5v8b";
     LocalStorage.stamp_time := 1700000060001 |}.

Definition server : LocalStorage.Env :=
  {| LocalStorage.window_defined := false;
     LocalStorage.getItem_fault := None;
     LocalStorage.setItem_fault := None;
     LocalStorage.id_time := 1700000000000;
     LocalStorage.random_suffix := lit "k3j9x0q1z";
     LocalStorage.stamp_time := 1700000000000 |}.

Definition quota_exceeded : Thrown :=
  ErrorValue (lit "QuotaExceededError") (lit "The quota has been exceeded.").

Definition full_browser : LocalStorage.Env :=
  {| LocalStorage.window_defined := true;
     LocalStorage.getItem_fault := None;
     LocalStorage.setItem_fault := Some quota_exceeded;
     LocalStorage.id_time := 1700000000000;
     LocalStorage.random_suffix := lit "k3j9x0q1z";
     LocalStorage.stamp_time := 1700000000000 |}.

Definition access_denied : Thrown :=
  ErrorValue (lit "SecurityError") (lit "The operation is insecure.").

Definition locked_browser : LocalStorage.Env :=
  {| LocalStorage.window_defined := true;
     LocalStorage.getItem_fault := Some access_denied;
     LocalStorage.setItem_fault := Some access_denied;
     LocalStorage.id_time := 1700000000000;
     LocalStorage.random_suffix := lit "k3j9x0q1z";
     LocalStorage.stamp_time := 1700000000000 |}.

(** Two invocations made one after the other, neither awaited in between:
    each runs up to its [await], then the two continuations run in turn. *)
Definition two_saves_at_once : list (LocalStorage.Job (T := jsstring)) :=
  [LocalStorage.Invoke browser u1 imageAnalyses (lit "eczema");
   LocalStorage.Invoke browser_later u1 symptomChecks (lit "migraine");
   LocalStorage.Resume 0;
   LocalStorage.Resume 1].

(** ** Outputs as the schemas of the flows want them

    Every required property is there, the list of specialists (or of
    resources) has an entry, and [indianMedicalRecommendations] is an array.
    A text may be empty where the flow fills it with [??], and may not where
    the flow fills it with [||] or tests it again. *)

Definition has_entry {A : Type} (x : option (list A)) : bool :=
  match x with
  | Some (_ :: _) => true
  | _ => false
  end.

Definition symptoms_well_formed (o : CheckSymptoms.Output) : bool :=
  present (CheckSymptoms.potentialConditions o)
  && present (CheckSymptoms.urgency o)
  && present (CheckSymptoms.urgencyReasoning o)
  && present (CheckSymptoms.suggestedNextSteps o)
  && has_entry (CheckSymptoms.doctorRecommendations o)
  && present (CheckSymptoms.indianMedicalRecommendations o).

Definition mental_health_well_formed (o : AssessMentalHealth.Output) : bool :=
  present (AssessMentalHealth.assessment o)
  && present (AssessMentalHealth.recommendations o)
  && has_entry (AssessMentalHealth.resourceSuggestions o)
  && present (AssessMentalHealth.indianMedicalRecommendations o).

Definition diet_well_formed (o : AnalyzeDiet.Output) : bool :=
  present (AnalyzeDiet.nutritionalBreakdown o)
  && present (AnalyzeDiet.healthObservations o)
  && present (AnalyzeDiet.improvementSuggestions o)
  && truthy_str (AnalyzeDiet.professionalRecommendation o)
  && present (AnalyzeDiet.indianMedicalRecommendations o).

Definition image_well_formed (o : AnalyzeImage.Output) : bool :=
  truthy_str (AnalyzeImage.assessment o)
  && truthy_str (AnalyzeImage.recommendations o)
  && has_entry (AnalyzeImage.doctorRecommendations o)
  && present (AnalyzeImage.indianMedicalRecommendations o).

Definition voice_well_formed (o : VoiceDiagnosis.Output) : bool :=
  present (VoiceDiagnosis.potentialConditions o)
  && present (VoiceDiagnosis.clarifyingQuestions o)
  && has_entry (VoiceDiagnosis.doctorRecommendations o)
  && present (VoiceDiagnosis.indianMedicalRecommendations o).

(** ** The forms (components/*.tsx)

    A component is its state and its handlers; a handler is given the
    props of the render it belongs to ([userId]) and what the asynchronous
    call it makes settles with.  The state it returns is the one after all
    its [set...] calls.  Toasts are kept in the order they were raised. *)

Module Toasts.

Record Toast : Type := {
  destructive : bool;
  title : jsstring;
  description : jsstring
}.

End Toasts.

Abbreviation Toast := Toasts.Toast.

(** [err instanceof Error ? err.message : fallback] *)
Definition message_or (fallback : jsstring) (err : Thrown) : jsstring :=
  match err with
  | ErrorValue _ message => message
  | OtherValue _ => fallback
  end.

(** [s.startsWith(prefix)] *)
Fixpoint starts_with (prefix s : jsstring) : bool :=
  match prefix, s with
  | [], _ => true
  | _ :: _, [] => false
  | p :: prefix', c :: s' => (p =? c)%N && starts_with prefix' s'
  end.

(** *** [SymptomChecker] (symptom-checker.tsx) *)
Module SymptomChecker.

Record State : Type := {
  symptoms : jsstring;
  result : option CheckSymptoms.Output;
  error : option jsstring;
  loading : bool;
  saving : bool;
  saved : bool;
  toasts : list Toast
}.

Definition initial : State :=
  {| symptoms := []; result := None; error := None; loading := false;
     saving := false; saved := false; toasts := [] |}.

Definition setSymptoms v (s : State) : State :=
  {| symptoms := v; result := result s; error := error s;
     loading := loading s; saving := saving s; saved := saved s;
     toasts := toasts s |}.

Definition setResult v (s : State) : State :=
  {| symptoms := symptoms s; result := v; error := error s;
     loading := loading s; saving := saving s; saved := saved s;
     toasts := toasts s |}.

Definition setError v (s : State) : State :=
  {| symptoms := symptoms s; result := result s; error := v;
     loading := loading s; saving := saving s; saved := saved s;
     toasts := toasts s |}.

Definition setLoading v (s : State) : State :=
  {| symptoms := symptoms s; result := result s; error := error s;
     loading := v; saving := saving s; saved := saved s;
     toasts := toasts s |}.

Definition setSaving v (s : State) : State :=
  {| symptoms := symptoms s; result := result s; error := error s;
     loading := loading s; saving := v; saved := saved s;
     toasts := toasts s |}.

Definition setSaved v (s : State) : State :=
  {| symptoms := symptoms s; result := result s; error := error s;
     loading := loading s; saving := saving s; saved := v;
     toasts := toasts s |}.

Definition toast (t : Toast) (s : State) : State :=
  {| symptoms := symptoms s; result := result s; error := error s;
     loading := loading s; saving := saving s; saved := saved s;
     toasts := toasts s ++ [t] |}.

Definition clearState (s : State) : State :=
  setSaved false (setError None (setResult None s)).

(** The [onChange] of the text area. *)
Definition onChange (value : jsstring) (s : State) : State :=
  clearState (setSymptoms value s).

(** [handleSubmit] up to its [await]: it returns at a guard, or the call
    to [checkSymptoms] is under way. *)
Inductive Submission : Type :=
| Dismissed (s : State)
| InFlight (s : State) (input : CheckSymptoms.Input).

Definition submit_begin (userId : jsstring) (s : State) : Submission :=
  let s := clearState s in
  if negb (truthy (trim userId)) then
    Dismissed
      (toast {| Toasts.destructive := true; Toasts.title := lit "User ID Missing";
                Toasts.description :=
                  lit "Please enter your User ID on the main page." |}
         (setError (Some (lit "User ID is required to perform analysis.")) s))
  else if negb (truthy (symptoms s)) then
    Dismissed (setError (Some (lit "Please describe your symptoms.")) s)
  else
    InFlight (setLoading true s)
      {| CheckSymptoms.symptoms := symptoms s;
         CheckSymptoms.userId := userId |}.

(** From the [await] on: [try], [catch] and [finally]. *)
Definition submit_settle (s : State) (settlement : outcome CheckSymptoms.Output)
  : State :=
  let s :=
    match settlement with
    | Returned checkerResult =>
        toast {| Toasts.destructive := false; Toasts.title := lit "Symptom Check Complete";
                 Toasts.description :=
                   lit "The symptom analysis has finished successfully." |}
          (setResult (Some checkerResult) s)
    | Raised err =>
        let errorMessage :=
          message_or (lit "An unexpected error occurred during analysis.")
            err in
        toast {| Toasts.destructive := true; Toasts.title := lit "Symptom Check Failed";
                 Toasts.description :=
                   lit "Could not analyze symptoms: " ++ errorMessage |}
          (setError (Some errorMessage) s)
    end in
  setLoading false s.

Definition handleSubmit
    (checkSymptoms : CheckSymptoms.Input -> outcome CheckSymptoms.Output)
    (userId : jsstring) (s : State) : State :=
  match submit_begin userId s with
  | Dismissed s' => s'
  | InFlight s' input => submit_settle s' (checkSymptoms input)
  end.

(** [handleSaveResult], over a store [S] that [saveAnalysis] acts on. *)
Definition handleSaveResult {S : Type}
    (saveAnalysis :
       jsstring -> AnalysisType -> CheckSymptoms.Output -> S
       -> outcome unit * S)
    (userId : jsstring) (s : State) (store : S) : State * S :=
  match result s with
  | None => (s, store)
  | Some result =>
      if negb (truthy userId) then (s, store)
      else
        let s := setSaved false (setSaving true s) in
        let '(settlement, store') :=
          saveAnalysis userId symptomChecks result store in
        let s :=
          match settlement with
          | Returned _ =>
              toast {| Toasts.destructive := false; Toasts.title := lit "Result Saved";
                       Toasts.description :=
                         lit "Symptom check has been saved to your dashboard." |}
                (setSaved true s)
          | Raised saveError =>
              let errorMessage :=
                message_or (lit "An unexpected error occurred.") saveError in
              toast {| Toasts.destructive := true; Toasts.title := lit "Save Failed";
                       Toasts.description :=
                         lit "Could not save the analysis: " ++ errorMessage |}
                (setError
                   (Some (lit "Failed to save result: " ++ errorMessage)) s)
          end in
        (setSaving false s, store')
  end.

Definition canSubmit (userId : jsstring) (s : State) : bool :=
  negb (loading s) && truthy (trim userId) && truthy (symptoms s).

End SymptomChecker.

(** *** [ImageAnalysis] (image-analysis.tsx, first document) *)
Module ImageAnalysis.

Record State : Type := {
  description : jsstring;
  photoDataUri : option jsstring;
  result : option AnalyzeImage.Output;
  error : option jsstring;
  loading : bool;
  saved : bool;
  toasts : list Toast
}.

Definition initial : State :=
  {| description := []; photoDataUri := None; result := None; error := None;
     loading := false; saved := false; toasts := [] |}.

Definition setDescription v (s : State) : State :=
  {| description := v; photoDataUri := photoDataUri s; result := result s;
     error := error s; loading := loading s; saved := saved s;
     toasts := toasts s |}.

Definition setPhotoDataUri v (s : State) : State :=
  {| description := description s; photoDataUri := v; result := result s;
     error := error s; loading := loading s; saved := saved s;
     toasts := toasts s |}.

Definition setResult v (s : State) : State :=
  {| description := description s; photoDataUri := photoDataUri s; result := v;
     error := error s; loading := loading s; saved := saved s;
     toasts := toasts s |}.

Definition setError v (s : State) : State :=
  {| description := description s; photoDataUri := photoDataUri s;
     result := result s; error := v; loading := loading s; saved := saved s;
     toasts := toasts s |}.

Definition setLoading v (s : State) : State :=
  {| description := description s; photoDataUri := photoDataUri s;
     result := result s; error := error s; loading := v; saved := saved s;
     toasts := toasts s |}.

Definition setSaved v (s : State) : State :=
  {| description := description s; photoDataUri := photoDataUri s;
     result := result s; error := error s; loading := loading s; saved := v;
     toasts := toasts s |}.

Definition toast (t : Toast) (s : State) : State :=
  {| description := description s; photoDataUri := photoDataUri s;
     result := result s; error := error s; loading := loading s;
     saved := saved s; toasts := toasts s ++ [t] |}.

Definition clearState (s : State) : State :=
  setSaved false (setError None (setResult None s)).

(** What the [FileReader] makes of the chosen file: its data URI, or an
    error. *)
Inductive FileRead : Type :=
| Loaded (name dataUri : jsstring)
| Unreadable.

(** [handleImageChange], with what the reader reports for the file (if one
    was chosen). *)
Definition handleImageChange (file : option FileRead) (s : State) : State :=
  let s := clearState s in
  match file with
  | Some (Loaded name dataUri) =>
      if negb (starts_with (lit "data:image/") dataUri) then
        toast {| Toasts.destructive := true; Toasts.title := lit "Invalid File Type";
                 Toasts.description := lit "Please upload a valid image file." |}
          (setPhotoDataUri None
             (setError
                (Some (lit "Invalid file type. Please upload an image (PNG, JPG, WEBP, etc.)."))
                s))
      else
        toast {| Toasts.destructive := false; Toasts.title := lit "Image Selected";
                 Toasts.description := lit "Selected: " ++ name |}
          (setPhotoDataUri (Some dataUri) s)
  | Some Unreadable =>
      toast {| Toasts.destructive := true; Toasts.title := lit "File Read Error";
               Toasts.description := lit "Could not read the selected image file." |}
        (setPhotoDataUri None
           (setError (Some (lit "Failed to read the image file.")) s))
  | None => setPhotoDataUri None s
  end.

(** The [onChange] of the description. *)
Definition onChange (value : jsstring) (s : State) : State :=
  clearState (setDescription value s).

Inductive Submission : Type :=
| Dismissed (s : State)
| InFlight (s : State) (input : AnalyzeImage.Input).

Definition submit_begin (userId : jsstring) (s : State) : Submission :=
  let s := clearState s in
  if negb (truthy (trim userId)) then
    Dismissed
      (toast {| Toasts.destructive := true; Toasts.title := lit "User ID Missing";
                Toasts.description :=
                  lit "Please enter your User ID on the main page." |}
         (setError (Some (lit "User ID is required to perform analysis.")) s))
  else if negb (truthy_str (photoDataUri s)) || negb (truthy (description s))
  then
    Dismissed
      (setError (Some (lit "Please provide both an image and a description."))
         s)
  else
    InFlight (setLoading true s)
      {| AnalyzeImage.photoDataUri := default [] (photoDataUri s);
         AnalyzeImage.description := description s;
         AnalyzeImage.userId := userId |}.

Definition submit_settle (s : State) (settlement : outcome AnalyzeImage.Output)
  : State :=
  let s :=
    match settlement with
    | Returned analysisResult =>
        toast {| Toasts.destructive := false; Toasts.title := lit "Analysis Complete";
                 Toasts.description :=
                   lit "The image analysis has finished successfully." |}
          (setResult (Some analysisResult) s)
    | Raised err =>
        let errorMessage :=
          message_or (lit "An unexpected error occurred during analysis.")
            err in
        toast {| Toasts.destructive := true; Toasts.title := lit "Analysis Failed";
                 Toasts.description :=
                   lit "Could not analyze the image: " ++ errorMessage |}
          (setError (Some errorMessage) s)
    end in
  setLoading false s.

Definition handleSubmit
    (analyzeImage : AnalyzeImage.Input -> outcome AnalyzeImage.Output)
    (userId : jsstring) (s : State) : State :=
  match submit_begin userId s with
  | Dismissed s' => s'
  | InFlight s' input => submit_settle s' (analyzeImage input)
  end.

Definition canSubmit (userId : jsstring) (s : State) : bool :=
  negb (loading s) && truthy (trim userId) && truthy_str (photoDataUri s)
  && truthy (description s).

(** What the user does with the form, one event after the other. *)
Inductive Event : Type :=
| ChooseFile (file : option FileRead)
| Describe (value : jsstring)
| Submit (analyzeImage : AnalyzeImage.Input -> outcome AnalyzeImage.Output)
    (userId : jsstring).

Definition step (s : State) (e : Event) : State :=
  match e with
  | ChooseFile file => handleImageChange file s
  | Describe value => onChange value s
  | Submit analyzeImage userId => handleSubmit analyzeImage userId s
  end.

End ImageAnalysis.

(** *** [DashboardPage] (app/(app)/dashboard/page.tsx) *)
Module Dashboard.

Section WithRecords.
Context {R : Type}.

Record State : Type := {
  analyses : list R;
  loading : bool;
  error : option jsstring
}.

(** The state of the first render. *)
Definition initial : State :=
  {| analyses := []; loading := true; error := None |}.

Definition setAnalyses v (s : State) : State :=
  {| analyses := v; loading := loading s; error := error s |}.

Definition setLoading v (s : State) : State :=
  {| analyses := analyses s; loading := v; error := error s |}.

Definition setError v (s : State) : State :=
  {| analyses := analyses s; loading := loading s; error := v |}.

(** The effect that runs when [userId] (the [userId] parameter of the
    address, [null] when there is none) changes, with the promise settled. *)
Definition effect (getUserAnalyses : jsstring -> outcome (list R))
    (userId : option jsstring) (s : State) : State :=
  if truthy_str userId then
    let s := setError None (setLoading true s) in
    let s :=
      match getUserAnalyses (default [] userId) with
      | Returned data => setAnalyses data s
      | Raised err => setError (Some (lit "Failed to load analysis history.")) s
      end in
    setLoading false s
  else setLoading false s.

(** What the page shows. *)
Inductive View : Type :=
| Spinner
| UserIdMissing
| ErrorLoadingDashboard (message : jsstring)
| NoHistory
| History (shown : list R).

Definition render (userId : option jsstring) (s : State) : View :=
  if loading s then Spinner
  else if negb (truthy_str userId) then UserIdMissing
  else if truthy_str (error s) then ErrorLoadingDashboard (default [] (error s))
  else
    match analyses s with
    | [] => NoHistory
    | _ :: _ => History (analyses s)
    end.

End WithRecords.

Arguments State R : clear implicits.
Arguments View R : clear implicits.

End Dashboard.

(** *** [Home] (app/page.tsx) *)
Module Home.

(** The state of the page, and the [userId] parameter of the address bar
    ([None] when the address has none). *)
Record State : Type := {
  inputUserId : jsstring;
  activeUserId : option jsstring;
  search_userId : option jsstring;
  toasts : list Toast
}.

Definition initial (search_userId : option jsstring) : State :=
  {| inputUserId := []; activeUserId := None; search_userId := search_userId;
     toasts := [] |}.

Definition setInputUserId v (s : State) : State :=
  {| inputUserId := v; activeUserId := activeUserId s;
     search_userId := search_userId s; toasts := toasts s |}.

Definition setActiveUserId v (s : State) : State :=
  {| inputUserId := inputUserId s; activeUserId := v;
     search_userId := search_userId s; toasts := toasts s |}.

(** [window.history.replaceState] with the parameter set or deleted. *)
Definition replaceState v (s : State) : State :=
  {| inputUserId := inputUserId s; activeUserId := activeUserId s;
     search_userId := v; toasts := toasts s |}.

Definition toast (t : Toast) (s : State) : State :=
  {| inputUserId := inputUserId s; activeUserId := activeUserId s;
     search_userId := search_userId s; toasts := toasts s ++ [t] |}.

(** The effect of the first render. *)
Definition effect (window_defined : bool) (s : State) : State :=
  if window_defined then
    let urlUserId := search_userId s in
    if truthy_str urlUserId then
      setInputUserId (default [] urlUserId) (setActiveUserId urlUserId s)
    else s
  else s.

Definition handleLogin (window_defined : bool) (s : State) : State :=
  if negb (truthy (trim (inputUserId s))) then
    toast {| Toasts.destructive := true; Toasts.title := lit "User ID Required";
             Toasts.description := lit "Please enter a User ID to log in." |} s
  else
    let s' := setActiveUserId (Some (trim (inputUserId s))) s in
    let s' :=
      if window_defined then replaceState (Some (trim (inputUserId s))) s'
      else s' in
    toast {| Toasts.destructive := false; Toasts.title := lit "Logged In";
             Toasts.description :=
               lit "User ID set to: " ++ trim (inputUserId s) |} s'.

Definition handleLogout (window_defined : bool) (s : State) : State :=
  let s := setInputUserId [] (setActiveUserId None s) in
  let s := if window_defined then replaceState None s else s in
  toast {| Toasts.destructive := false; Toasts.title := lit "Logged Out";
           Toasts.description := lit "User ID has been cleared." |} s.


(** What the user can do: the text field takes input while nobody is logged
    in, the Login button is there while nobody is logged in and enabled
    when the text is not blank, the Logout button is there otherwise. *)
Inductive Event : Type :=
| Type_ (value : jsstring)
| ClickLogin
| ClickLogout.

Definition step (window_defined : bool) (s : State) (e : Event) : State :=
  match e with
  | Type_ value =>
      if truthy_str (activeUserId s) then s else setInputUserId value s
  | ClickLogin =>
      if truthy_str (activeUserId s) then s
      else if negb (truthy (trim (inputUserId s))) then s
      else handleLogin window_defined s
  | ClickLogout =>
      if truthy_str (activeUserId s) then handleLogout window_defined s else s
  end.

End Home.

(** Nothing to strip at the front. *)
Definition clean_start (s : jsstring) : Prop :=
  match s with
  | [] => True
  | c :: _ => is_white_space c = false
  end.

(** The photo the image form holds is the data URI of an image. *)
Definition photo_is_image (s : ImageAnalysis.State) : Prop :=
  forall dataUri,
    ImageAnalysis.photoDataUri s = Some dataUri ->
    starts_with (lit "data:image/") dataUri = true.


(** *** [AnalysisResultDetails] (app/(app)/dashboard/page.tsx) *)
Module ResultDetails.

(** [result.recommendations] is a text in an image analysis and a list
    elsewhere. *)
Inductive TextOrList : Type :=
| Text (text : jsstring)
| Items (items : list jsstring).

(** The properties of [result] the component reads; a saved result has
    those of its flow's output and lacks the others. *)
Record Result : Type := {
  assessment : option jsstring;
  recommendations : option TextOrList;
  suggestedNextSteps : option (list jsstring);
  improvementSuggestions : option (list jsstring);
  doctorRecommendations : option (list jsstring);
  resourceSuggestions : option (list jsstring);
  indianMedicalRecommendations : option (list IndianMedicalRecommendation);
  potentialConditions : option (list jsstring);
  clarifyingQuestions : option (list jsstring);
  urgency : option CheckSymptoms.Urgency;
  urgencyReasoning : option jsstring;
  crisisWarning : option jsstring;
  nutritionalBreakdown : option jsstring;
  healthObservations : option (list jsstring);
  professionalRecommendation : option jsstring
}.

Definition empty : Result :=
  {| assessment := None; recommendations := None; suggestedNextSteps := None;
     improvementSuggestions := None; doctorRecommendations := None;
     resourceSuggestions := None; indianMedicalRecommendations := None;
     potentialConditions := None; clarifyingQuestions := None;
     urgency := None; urgencyReasoning := None; crisisWarning := None;
     nutritionalBreakdown := None; healthObservations := None;
     professionalRecommendation := None |}.

(** The outputs of the five flows, as the component finds them. *)
Definition of_image (o : AnalyzeImage.Output) : Result :=
  {| assessment := AnalyzeImage.assessment o;
     recommendations := Text <$> AnalyzeImage.recommendations o;
     suggestedNextSteps := None; improvementSuggestions := None;
     doctorRecommendations := AnalyzeImage.doctorRecommendations o;
     resourceSuggestions := None;
     indianMedicalRecommendations := AnalyzeImage.indianMedicalRecommendations o;
     potentialConditions := None; clarifyingQuestions := None;
     urgency := None; urgencyReasoning := None; crisisWarning := None;
     nutritionalBreakdown := None; healthObservations := None;
     professionalRecommendation := None |}.

Definition of_voice (o : VoiceDiagnosis.Output) : Result :=
  {| assessment := None; recommendations := None; suggestedNextSteps := None;
     improvementSuggestions := None;
     doctorRecommendations := VoiceDiagnosis.doctorRecommendations o;
     resourceSuggestions := None;
     indianMedicalRecommendations :=
       VoiceDiagnosis.indianMedicalRecommendations o;
     potentialConditions := VoiceDiagnosis.potentialConditions o;
     clarifyingQuestions := VoiceDiagnosis.clarifyingQuestions o;
     urgency := None; urgencyReasoning := None; crisisWarning := None;
     nutritionalBreakdown := None; healthObservations := None;
     professionalRecommendation := None |}.

Definition of_symptoms (o : CheckSymptoms.Output) : Result :=
  {| assessment := None; recommendations := None;
     suggestedNextSteps := CheckSymptoms.suggestedNextSteps o;
     improvementSuggestions := None;
     doctorRecommendations := CheckSymptoms.doctorRecommendations o;
     resourceSuggestions := None;
     indianMedicalRecommendations :=
       CheckSymptoms.indianMedicalRecommendations o;
     potentialConditions := CheckSymptoms.potentialConditions o;
     clarifyingQuestions := None;
     urgency := CheckSymptoms.urgency o;
     urgencyReasoning := CheckSymptoms.urgencyReasoning o;
     crisisWarning := None;
     nutritionalBreakdown := None; healthObservations := None;
     professionalRecommendation := None |}.

Definition of_mental_health (o : AssessMentalHealth.Output) : Result :=
  {| assessment := AssessMentalHealth.assessment o;
     recommendations := Items <$> AssessMentalHealth.recommendations o;
     suggestedNextSteps := None; improvementSuggestions := None;
     doctorRecommendations := None;
     resourceSuggestions := AssessMentalHealth.resourceSuggestions o;
     indianMedicalRecommendations :=
       AssessMentalHealth.indianMedicalRecommendations o;
     potentialConditions := None; clarifyingQuestions := None;
     urgency := None; urgencyReasoning := None;
     crisisWarning := AssessMentalHealth.crisisWarning o;
     nutritionalBreakdown := None; healthObservations := None;
     professionalRecommendation := None |}.

Definition of_diet (o : AnalyzeDiet.Output) : Result :=
  {| assessment := None; recommendations := None; suggestedNextSteps := None;
     improvementSuggestions := AnalyzeDiet.improvementSuggestions o;
     doctorRecommendations := None; resourceSuggestions := None;
     indianMedicalRecommendations := AnalyzeDiet.indianMedicalRecommendations o;
     potentialConditions := None; clarifyingQuestions := None;
     urgency := None; urgencyReasoning := None; crisisWarning := None;
     nutritionalBreakdown := AnalyzeDiet.nutritionalBreakdown o;
     healthObservations := AnalyzeDiet.healthObservations o;
     professionalRecommendation := AnalyzeDiet.professionalRecommendation o |}.

(** Truthiness of a text-or-list: a list is an object, always truthy. *)
Definition truthy_value (x : option TextOrList) : bool :=
  match x with
  | Some (Text (_ :: _)) => true
  | Some (Items _) => true
  | _ => false
  end.

(** [a || b] where [a] is a text-or-list and [b] a list. *)
Definition or_list (a : option TextOrList) (b : option (list jsstring))
  : option TextOrList :=
  if truthy_value a then a else Items <$> b.

(** [a || b] on two lists. *)
Definition or_else_list (a b : option (list jsstring))
  : option (list jsstring) :=
  if present a then a else b.

Inductive BadgeVariant : Type :=
| variant_default
| variant_secondary
| variant_destructive.

(** One block of the details, with what it holds. *)
Inductive Block : Type :=
| Assessment (text : jsstring)
| PotentialConditions (items : list jsstring)
| Urgency (level : CheckSymptoms.Urgency) (badge : BadgeVariant)
    (reasoning : option jsstring)
| Recommendations (items : list jsstring)
| NutritionalBreakdown (text : jsstring)
| HealthObservations (items : list jsstring)
| ClarifyingQuestions (items : list jsstring)
| Specialists (items : list jsstring)
| ProfessionalConsultation (text : jsstring)
| CrisisWarning (text : jsstring)
| IndianRecommendations (items : list IndianMedicalRecommendation).

(** [{text && <div>...</div>}] *)
Definition when_text (block : jsstring -> Block) (x : option jsstring)
  : list Block :=
  match x with
  | Some (c :: text) => [block (c :: text)]
  | _ => []
  end.

(** [{items && items.length > 0 && (<div>...</div>)}] *)
Definition when_items {A : Type} (block : list A -> Block) (x : option (list A))
  : list Block :=
  match x with
  | Some (item :: items) => [block (item :: items)]
  | _ => []
  end.

(** The blocks the component renders, top to bottom. *)
Definition AnalysisResultDetails (result : Result) (type : AnalysisType)
  : list Block :=
  let assessment := assessment result in
  let recommendations :=
    or_list
      (or_list (recommendations result) (suggestedNextSteps result))
      (improvementSuggestions result) in
  let doctorRecommendations :=
    or_else_list (doctorRecommendations result) (resourceSuggestions result) in
  when_text Assessment assessment
  ++ when_items PotentialConditions (potentialConditions result)
  ++ match urgency result with
     | Some urgency =>
         [Urgency urgency
            match urgency with
            | CheckSymptoms.High => variant_destructive
            | CheckSymptoms.Medium => variant_secondary
            | CheckSymptoms.Low => variant_default
            end
            (if truthy_str (urgencyReasoning result)
             then urgencyReasoning result else None)]
     | None => []
     end
  ++ match recommendations with
     | Some (Text (c :: text)) => [Recommendations [c :: text]]
     | Some (Items (item :: items)) => [Recommendations (item :: items)]
     | _ => []
     end
  ++ when_text NutritionalBreakdown (nutritionalBreakdown result)
  ++ when_items HealthObservations (healthObservations result)
  ++ when_items ClarifyingQuestions (clarifyingQuestions result)
  ++ when_items Specialists doctorRecommendations
  ++ match type with
     | dietaryAnalyses =>
         when_text ProfessionalConsultation (professionalRecommendation result)
     | _ => []
     end
  ++ when_text CrisisWarning (crisisWarning result)
  ++ when_items IndianRecommendations (indianMedicalRecommendations result).

(** A block has something in it. *)
Definition filled (block : Block) : bool :=
  match block with
  | Assessment text | NutritionalBreakdown text
  | ProfessionalConsultation text | CrisisWarning text => truthy text
  | PotentialConditions items | Recommendations items
  | HealthObservations items | ClarifyingQuestions items
  | Specialists items => negb (Nat.eqb (length items) 0)
  | Urgency _ _ _ => true
  | IndianRecommendations items => negb (Nat.eqb (length items) 0)
  end.

End ResultDetails.

(** * Properties *)

(** ** Serialization *)

Lemma parse_decimal_decimal (z : Z) : Numeral.parse_decimal (decimal z) = Some z.
Proof.
  unfold Numeral.parse_decimal, decimal, lit.
  rewrite map_map.
  rewrite (map_ext _ id), map_id by apply ascii_N_embedding.
  rewrite string_of_list_ascii_of_string.
  rewrite NilZero.isi.
  - simpl. f_equal. apply Stdlib.Numbers.DecimalZ.of_to.
  - destruct z as [|p|p]; simpl; try discriminate.
    intros E. injection E as E. revert E. apply Stdlib.Numbers.DecimalPos.Unsigned.to_uint_nonnil.
  - destruct z as [|p|p]; simpl; try discriminate.
    intros E. injection E as E. revert E. apply Stdlib.Numbers.DecimalPos.Unsigned.to_uint_nonnil.
Qed.

Lemma decimal_truthy (z : Z) : truthy (decimal z) = true.
Proof.
  pose proof (parse_decimal_decimal z) as E.
  destruct (decimal z); [discriminate E | reflexivity].
Qed.

#[global] Instance numeral_serializable : LocalStorage.JsonSerializable jsstring.
Proof.
  split; intros l; simpl.
  - apply decimal_truthy.
  - rewrite parse_decimal_decimal, decode_encode. reflexivity.
Qed.

(** ** The flows: back-fill of the model's output *)

Section CheckSymptomsFlow.
Import CheckSymptoms.

Lemma checkSymptoms_normalize_returns (o : Output) :
  exists o', normalizeOutput o = Returned o'.
Proof.
  destruct o as [pc u ur sns dr imr].
  destruct pc, u, ur as [[|]|], sns, dr as [[|]|]; eexists; reflexivity.
Qed.

Lemma checkSymptoms_normalize_idempotent (o : Output) :
  normalizeOutput o ≫= normalizeOutput = normalizeOutput o.
Proof.
  destruct o as [pc u ur sns dr imr].
  destruct pc, u, ur as [[|]|], sns, dr as [[|]|], imr; reflexivity.
Qed.

Lemma checkSymptoms_backfill (o : Output) :
  doctorRecommendations o = None \/ doctorRecommendations o = Some [] ->
  indianMedicalRecommendations o = None ->
  exists o',
    normalizeOutput o = Returned o'
    /\ doctorRecommendations o' = Some [lit "General Practitioner"]
    /\ indianMedicalRecommendations o' = Some []
    /\ kept (potentialConditions o) (potentialConditions o')
    /\ kept (urgency o) (urgency o')
    /\ kept (urgencyReasoning o) (urgencyReasoning o')
    /\ kept (suggestedNextSteps o) (suggestedNextSteps o').
Proof.
  destruct o as [pc u ur sns dr imr]; simpl.
  intros [-> | ->] ->;
    destruct pc, u, ur as [[|]|], sns; eexists; repeat split; reflexivity.
Qed.

Lemma checkSymptomsFlow_settles prompt (input : Input) :
  settles_as (prompt input) (checkSymptomsFlow prompt input).
Proof.
  unfold checkSymptomsFlow, settles_as.
  destruct (prompt input) as [[o|]|e]; simpl; try reflexivity.
  apply checkSymptoms_normalize_returns.
Qed.

End CheckSymptomsFlow.

Section AssessMentalHealthFlow.
Import AssessMentalHealth.

Lemma assessMentalHealth_normalize_returns (o : Output) :
  exists o', normalizeOutput o = Returned o'.
Proof.
  destruct o as [a r rs cw imr].
  destruct a as [[|]|], r, rs as [[|]|]; eexists; reflexivity.
Qed.

Lemma assessMentalHealth_normalize_idempotent (o : Output) :
  normalizeOutput o ≫= normalizeOutput = normalizeOutput o.
Proof.
  destruct o as [a r rs cw imr].
  destruct a as [[|]|], r, rs as [[|]|], imr; reflexivity.
Qed.

Lemma assessMentalHealth_backfill (o : Output) :
  resourceSuggestions o = None \/ resourceSuggestions o = Some [] ->
  exists o',
    normalizeOutput o = Returned o'
    /\ resourceSuggestions o'
       = Some [lit "General Practitioner"; lit "Mental Health Professional"].
Proof.
  destruct o as [a r rs cw imr]; simpl.
  intros [-> | ->]; destruct a as [[|]|], r; eexists; split; reflexivity.
Qed.

Lemma assessMentalHealthFlow_settles prompt (input : Input) :
  settles_as (prompt input) (assessMentalHealthFlow prompt input).
Proof.
  unfold assessMentalHealthFlow, settles_as.
  destruct (prompt input) as [[o|]|e]; simpl; try reflexivity.
  apply assessMentalHealth_normalize_returns.
Qed.

End AssessMentalHealthFlow.

Section AnalyzeDietFlow.
Import AnalyzeDiet.

Lemma analyzeDiet_normalize_returns (o : Output) :
  exists o', normalizeOutput o = Returned o'.
Proof. eexists. reflexivity. Qed.

Lemma analyzeDiet_normalize_idempotent (o : Output) :
  normalizeOutput o ≫= normalizeOutput = normalizeOutput o.
Proof.
  destruct o as [nb ho im pr imr].
  destruct nb as [[|]|], ho, im, pr as [[|]|], imr; reflexivity.
Qed.

Lemma analyzeDietFlow_settles prompt (input : Input) :
  settles_as (prompt input) (analyzeDietFlow prompt input).
Proof.
  unfold analyzeDietFlow, settles_as. destruct input as [d ph u]; simpl.
  destruct (prompt _) as [[o|]|e]; simpl; try reflexivity.
  apply analyzeDiet_normalize_returns.
Qed.

End AnalyzeDietFlow.

Section AnalyzeImageFlow.
Import AnalyzeImage.

Lemma analyzeImage_normalize_returns (o : Output) :
  exists o', normalizeOutput o = Returned o'.
Proof.
  destruct o as [a r dr imr].
  destruct a as [[|]|], r as [[|]|], dr as [[|]|]; eexists; reflexivity.
Qed.

Lemma analyzeImage_normalize_idempotent (o : Output) :
  normalizeOutput o ≫= normalizeOutput = normalizeOutput o.
Proof.
  destruct o as [a r dr imr].
  destruct a as [[|]|], r as [[|]|], dr as [[|]|], imr; reflexivity.
Qed.

Lemma analyzeImageFlow_settles prompt (input : Input) :
  settles_as (prompt input) (analyzeImageFlow prompt input).
Proof.
  unfold analyzeImageFlow, settles_as.
  destruct (prompt input) as [[o|]|e]; simpl; try reflexivity.
  apply analyzeImage_normalize_returns.
Qed.

End AnalyzeImageFlow.

Section VoiceDiagnosisFlow.
Import VoiceDiagnosis.

Lemma voiceDiagnosis_normalize_returns (o : Output) :
  exists o', normalizeOutput o = Returned o'.
Proof.
  destruct o as [pc cq dr imr].
  destruct pc, cq, dr as [[|]|]; eexists; reflexivity.
Qed.

Lemma voiceDiagnosis_normalize_idempotent (o : Output) :
  normalizeOutput o ≫= normalizeOutput = normalizeOutput o.
Proof.
  destruct o as [pc cq dr imr].
  destruct pc, cq, dr as [[|]|], imr; reflexivity.
Qed.

(** A request the schema accepts reaches the model. *)
Lemma voiceDiagnosis_promptInput (input : Input) :
  valid_input input = true -> exists p, promptInput input = Some p.
Proof.
  unfold valid_input, promptInput. intros V.
  destruct (truthy_str (audioDataUri input)); [eexists; reflexivity |].
  rewrite orb_false_r in V. rewrite V. eexists; reflexivity.
Qed.

Lemma voiceDiagnosisFlow_settles prompt (input p : Input) :
  promptInput input = Some p ->
  settles_as (prompt p) (voiceDiagnosisFlow prompt input).
Proof.
  intros P. unfold voiceDiagnosisFlow, settles_as. rewrite P.
  destruct (prompt p) as [[o|]|e]; simpl; try reflexivity.
  apply voiceDiagnosis_normalize_returns.
Qed.

(** A request with neither text nor audio is answered without the model. *)
Lemma voiceDiagnosisFlow_no_symptoms prompt (input : Input) :
  valid_input input = false ->
  voiceDiagnosisFlow prompt input = Returned no_symptoms_output.
Proof.
  unfold valid_input, voiceDiagnosisFlow, promptInput. intros V.
  apply orb_false_iff in V as [-> ->]. reflexivity.
Qed.

End VoiceDiagnosisFlow.

(** C4: a symptom-check response that omits [doctorRecommendations] (or has
    it empty) and omits [indianMedicalRecommendations] is returned with the
    first set to [["General Practitioner"]] and the second to [[]], every
    other property it supplies unchanged; a mental-health response whose
    [resourceSuggestions] is missing or empty gets
    [["General Practitioner", "Mental Health Professional"]]. *)
Theorem backfill_defaults
    (o : CheckSymptoms.Output) (m : AssessMentalHealth.Output) :
  CheckSymptoms.doctorRecommendations o = None
  \/ CheckSymptoms.doctorRecommendations o = Some [] ->
  CheckSymptoms.indianMedicalRecommendations o = None ->
  AssessMentalHealth.resourceSuggestions m = None
  \/ AssessMentalHealth.resourceSuggestions m = Some [] ->
  (exists o',
      CheckSymptoms.normalizeOutput o = Returned o'
      /\ CheckSymptoms.doctorRecommendations o'
         = Some [lit "General Practitioner"]
      /\ CheckSymptoms.indianMedicalRecommendations o' = Some []
      /\ kept (CheckSymptoms.potentialConditions o)
              (CheckSymptoms.potentialConditions o')
      /\ kept (CheckSymptoms.urgency o) (CheckSymptoms.urgency o')
      /\ kept (CheckSymptoms.urgencyReasoning o)
              (CheckSymptoms.urgencyReasoning o')
      /\ kept (CheckSymptoms.suggestedNextSteps o)
              (CheckSymptoms.suggestedNextSteps o'))
  /\ (exists m',
        AssessMentalHealth.normalizeOutput m = Returned m'
        /\ AssessMentalHealth.resourceSuggestions m'
           = Some [lit "General Practitioner";
                   lit "Mental Health Professional"]).
Proof.
  intros Hdr Himr Hrs. split.
  - apply checkSymptoms_backfill; assumption.
  - apply assessMentalHealth_backfill; assumption.
Qed.

(** The scenario of the specification, computed. *)
Example headache_normalized :
  CheckSymptoms.normalizeOutput headache_response
  = Returned
      (CheckSymptoms.set_indianMedicalRecommendations (Some [])
         (CheckSymptoms.set_doctorRecommendations
            (Some [lit "General Practitioner"]) headache_response)).
Proof. reflexivity. Qed.

Lemma backfill_defaults_witness :
  (CheckSymptoms.doctorRecommendations headache_response = None
   \/ CheckSymptoms.doctorRecommendations headache_response = Some [])
  /\ (AssessMentalHealth.resourceSuggestions stress_response = None
      \/ AssessMentalHealth.resourceSuggestions stress_response = Some [])
  /\ (exists o',
        CheckSymptoms.normalizeOutput headache_response = Returned o'
        /\ CheckSymptoms.doctorRecommendations o'
           = Some [lit "General Practitioner"])
  /\ (exists m',
        AssessMentalHealth.normalizeOutput stress_response = Returned m'
        /\ AssessMentalHealth.resourceSuggestions m'
           = Some [lit "General Practitioner";
                   lit "Mental Health Professional"]).
Proof.
  assert (Hdr : CheckSymptoms.doctorRecommendations headache_response = None
                \/ CheckSymptoms.doctorRecommendations headache_response
                   = Some []) by (left; reflexivity).
  assert (Hrs : AssessMentalHealth.resourceSuggestions stress_response = None
                \/ AssessMentalHealth.resourceSuggestions stress_response
                   = Some []) by (right; reflexivity).
  destruct (backfill_defaults headache_response stress_response
              Hdr eq_refl Hrs) as [(o' & E & D & _) M].
  repeat split; try assumption.
  exists o'; split; assumption.
Defined.

(** C5: in each of the five flows the back-fill is idempotent: normalizing
    a normalized output returns it unchanged. *)
Theorem backfill_idempotent :
  (forall o, CheckSymptoms.normalizeOutput o ≫= CheckSymptoms.normalizeOutput
             = CheckSymptoms.normalizeOutput o)
  /\ (forall o, AssessMentalHealth.normalizeOutput o
                ≫= AssessMentalHealth.normalizeOutput
                = AssessMentalHealth.normalizeOutput o)
  /\ (forall o, AnalyzeDiet.normalizeOutput o ≫= AnalyzeDiet.normalizeOutput
                = AnalyzeDiet.normalizeOutput o)
  /\ (forall o, AnalyzeImage.normalizeOutput o ≫= AnalyzeImage.normalizeOutput
                = AnalyzeImage.normalizeOutput o)
  /\ (forall o, VoiceDiagnosis.normalizeOutput o
                ≫= VoiceDiagnosis.normalizeOutput
                = VoiceDiagnosis.normalizeOutput o).
Proof.
  repeat split.
  - apply checkSymptoms_normalize_idempotent.
  - apply assessMentalHealth_normalize_idempotent.
  - apply analyzeDiet_normalize_idempotent.
  - apply analyzeImage_normalize_idempotent.
  - apply voiceDiagnosis_normalize_idempotent.
Qed.

(** C9: in each of the five flows, a request that reaches the model fails
    with an error when the model's output is null, and returns a result
    when there is an output; the model is asked once. *)
Theorem null_output_fatal
    (symptomCheckerPrompt :
       CheckSymptoms.Input -> outcome (option CheckSymptoms.Output))
    (mentalHealthPrompt :
       AssessMentalHealth.Input -> outcome (option AssessMentalHealth.Output))
    (dietaryAnalysisPrompt :
       AnalyzeDiet.Input -> outcome (option AnalyzeDiet.Output))
    (analyzeImagePrompt :
       AnalyzeImage.Input -> outcome (option AnalyzeImage.Output))
    (prompt : VoiceDiagnosis.Input -> outcome (option VoiceDiagnosis.Output))
    (symptoms : CheckSymptoms.Input) (feelings : AssessMentalHealth.Input)
    (meal : AnalyzeDiet.Input) (photo : AnalyzeImage.Input)
    (voice : VoiceDiagnosis.Input) :
  VoiceDiagnosis.valid_input voice = true ->
  settles_as (symptomCheckerPrompt symptoms)
    (CheckSymptoms.checkSymptomsFlow symptomCheckerPrompt symptoms)
  /\ settles_as (mentalHealthPrompt feelings)
       (AssessMentalHealth.assessMentalHealthFlow mentalHealthPrompt feelings)
  /\ settles_as (dietaryAnalysisPrompt meal)
       (AnalyzeDiet.analyzeDietFlow dietaryAnalysisPrompt meal)
  /\ settles_as (analyzeImagePrompt photo)
       (AnalyzeImage.analyzeImageFlow analyzeImagePrompt photo)
  /\ exists sent,
       VoiceDiagnosis.promptInput voice = Some sent
       /\ settles_as (prompt sent)
            (VoiceDiagnosis.voiceDiagnosisFlow prompt voice).
Proof.
  intros V. repeat split.
  - apply checkSymptomsFlow_settles.
  - apply assessMentalHealthFlow_settles.
  - apply analyzeDietFlow_settles.
  - apply analyzeImageFlow_settles.
  - destruct (voiceDiagnosis_promptInput voice V) as [sent P].
    exists sent. split; [exact P |]. apply voiceDiagnosisFlow_settles, P.
Qed.

Lemma null_output_fatal_witness :
  VoiceDiagnosis.valid_input spoken_request = true
  /\ VoiceDiagnosis.voiceDiagnosisFlow (answering None) spoken_request
     = Raised (new_Error null_output_message)
  /\ CheckSymptoms.checkSymptomsFlow (answering (Some headache_response))
       {| CheckSymptoms.symptoms := lit "Headache for a week";
          CheckSymptoms.userId := lit "u1" |}
     <> Raised (new_Error null_output_message).
Proof.
  split; [reflexivity |].
  destruct (null_output_fatal
              (answering (Some headache_response))
              (answering None) (answering None) (answering None)
              (answering None)
              {| CheckSymptoms.symptoms := lit "Headache for a week";
                 CheckSymptoms.userId := lit "u1" |}
              {| AssessMentalHealth.description := lit "I feel tense lately.";
                 AssessMentalHealth.userId := lit "u1" |}
              {| AnalyzeDiet.description := Some (lit "Rice and lentils");
                 AnalyzeDiet.photoDataUri := None;
                 AnalyzeDiet.userId := lit "u1" |}
              {| AnalyzeImage.photoDataUri := lit "data:image/png;base64,AA";
                 AnalyzeImage.description := lit "A rash";
                 AnalyzeImage.userId := lit "u1" |}
              spoken_request eq_refl)
    as ([o' S] & _ & _ & _ & sent & _ & Vc).
  split; [exact Vc |].
  rewrite S. discriminate.
Defined.

(** ** [Array.prototype.sort] *)

Section ArraySort.
Context {A : Type} (compareFn : A -> A -> Z).

Lemma insert_sorted_Permutation (x : A) (l : list A) :
  insert_sorted compareFn x l ≡ₚ x :: l.
Proof.
  induction l as [|y l IH]; simpl; [reflexivity |].
  destruct (compareFn x y <=? 0); [reflexivity |].
  rewrite IH. apply Permutation_swap.
Qed.

Lemma Array_sort_Permutation (l : list A) : Array_sort compareFn l ≡ₚ l.
Proof.
  induction l as [|x l IH]; simpl; [reflexivity |].
  rewrite insert_sorted_Permutation. by rewrite IH.
Qed.

Lemma Array_sort_elem_of (x : A) (l : list A) :
  x ∈ Array_sort compareFn l <-> x ∈ l.
Proof. by rewrite Array_sort_Permutation. Qed.

(** For a consistent comparator the result is ordered. *)
Local Abbreviation before := (may_precede compareFn).

Hypothesis before_total : forall a b, before a b \/ before b a.
Hypothesis before_trans : forall a b c, before a b -> before b c -> before a c.

Lemma insert_sorted_StronglySorted (x : A) (l : list A) :
  StronglySorted before l -> StronglySorted before (insert_sorted compareFn x l).
Proof.
  induction 1 as [|y l S IH F]; simpl.
  - repeat constructor.
  - destruct (Z.leb_spec (compareFn x y) 0) as [L|L].
    + constructor; [by constructor |].
      constructor; [exact L |].
      eapply Forall_impl; [exact F |]. intros z. by apply before_trans.
    + constructor; [exact IH |].
      rewrite insert_sorted_Permutation. constructor; [| exact F].
      destruct (before_total x y) as [B|B]; [unfold may_precede in B; lia | exact B].
Qed.

Lemma Array_sort_StronglySorted (l : list A) :
  StronglySorted before (Array_sort compareFn l).
Proof.
  induction l as [|x l IH]; simpl; [constructor |].
  by apply insert_sorted_StronglySorted.
Qed.

End ArraySort.

(** ** The Firestore backend *)

Section FirestoreBackend.
Context {T : Type}.
Import Firestore.

Lemma firestore_getUserAnalyses_online (env : Env) (analyses : list (Document T))
    (user : jsstring) :
  fault env = None ->
  exists l, getUserAnalyses env analyses user = Returned l
            /\ forall r, r ∈ l -> userId r = user.
Proof.
  intros F. unfold getUserAnalyses, getDocs. rewrite F. simpl.
  eexists. split; [reflexivity |].
  intros r [d [-> D]]%list_elem_of_fmap. simpl.
  by apply list_elem_of_filter in D as [D _].
Qed.

Lemma firestore_getUserAnalyses_fault (env : Env) (analyses : list (Document T))
    (user : jsstring) (e : Thrown) :
  fault env = Some e -> getUserAnalyses env analyses user = Raised e.
Proof. intros F. unfold getUserAnalyses, getDocs. by rewrite F. Qed.

Lemma firestore_getUserAnalyses_userId (env : Env) (analyses : list (Document T))
    (user : jsstring) (l : list (AnalysisRecord T)) (r : AnalysisRecord T) :
  getUserAnalyses env analyses user = Returned l -> r ∈ l -> userId r = user.
Proof.
  destruct (fault env) as [e|] eqn:F.
  - rewrite (firestore_getUserAnalyses_fault _ _ _ e F). discriminate.
  - destruct (firestore_getUserAnalyses_online env analyses user F)
      as (l' & -> & U).
    intros [= <-]. apply U.
Qed.

Lemma firestore_getUserAnalyses_unknown (env : Env) (analyses : list (Document T))
    (user : jsstring) :
  fault env = None ->
  (forall d, d ∈ analyses -> data_userId d <> user) ->
  getUserAnalyses env analyses user = Returned [].
Proof.
  intros F N. unfold getUserAnalyses, getDocs. rewrite F. simpl.
  replace (filter _ analyses) with (@nil (Document T)); [reflexivity |].
  symmetry. induction analyses as [|d l IH]; [reflexivity |].
  rewrite filter_cons_False by (apply N; left).
  apply IH. intros d' D. apply N. by right.
Qed.

Lemma firestore_saveAnalysis_fault (env : Env) (analyses : list (Document T))
    (user : jsstring) (analysisType : AnalysisType) (result : T) (e : Thrown) :
  fault env = Some e ->
  saveAnalysis env analyses user analysisType result = (Raised e, analyses).
Proof. intros F. unfold saveAnalysis, addDoc. by rewrite F. Qed.

Lemma elem_of_place (d d' : Document T) (analyses : list (Document T)) :
  d' ∈ place d analyses <-> d' = d \/ d' ∈ analyses.
Proof.
  induction analyses as [|x l IH]; simpl.
  - rewrite list_elem_of_singleton, elem_of_nil. tauto.
  - destruct (id_leb (doc_id d) (doc_id x)).
    + rewrite elem_of_cons. tauto.
    + rewrite !elem_of_cons, IH. tauto.
Qed.

(** [addDoc] adds to whatever the collection holds: documents already
    there stay, so two saves, in either order, are both listed. *)
Lemma firestore_saveAnalysis_keeps (env : Env) (analyses : list (Document T))
    (user : jsstring) (analysisType : AnalysisType) (result : T)
    (d : Document T) :
  d ∈ analyses ->
  d ∈ snd (saveAnalysis env analyses user analysisType result).
Proof.
  intros D. unfold saveAnalysis, addDoc.
  destruct (fault env); simpl; [exact D |].
  apply elem_of_place. by right.
Qed.

Lemma firestore_saveAnalysis_adds (env : Env) (analyses : list (Document T))
    (user : jsstring) (analysisType : AnalysisType) (result : T) :
  fault env = None ->
  {| doc_id := auto_id env; data_userId := user;
     data_analysisType := analysisType; data_timestamp := now env;
     data_result := result |}
  ∈ snd (saveAnalysis env analyses user analysisType result).
Proof.
  intros F. unfold saveAnalysis, addDoc. rewrite F. simpl.
  apply elem_of_place. by left.
Qed.

End FirestoreBackend.

(** C1 (Firestore backend): two saves for one user a minute apart, then a
    listing.  The listing has the older record first: the query has no
    ordering on [timestamp], and the documents come in the order of their
    generated ids. *)
Theorem firestore_listing_oldest_first :
  exists older newer,
    Firestore.getUserAnalyses online
      (Firestore.saves []
         [(first_save, u1, imageAnalyses, lit "eczema");
          (second_save, u1, symptomChecks, lit "migraine")]) u1
    = Returned [older; newer]
    /\ Firestore.timestamp older = 1700000000000
    /\ Firestore.timestamp newer = 1700000060000
    /\ ~ newest_first_order Firestore.timestamp [older; newer].
Proof.
  do 2 eexists. split; [vm_compute; reflexivity |].
  split; [reflexivity |]. split; [reflexivity |].
  intros S. apply StronglySorted_inv in S as [_ F].
  apply Forall_inv in F. simpl in F. lia.
Qed.

(** ** The localStorage backend *)

Lemma getStorageKey_inj (a b : jsstring) :
  LocalStorage.getStorageKey a = LocalStorage.getStorageKey b -> a = b.
Proof. unfold LocalStorage.getStorageKey. apply app_inv_head. Qed.

Section LocalStorageBackend.
Context {T : Type} `{LocalStorage.Json T}.
Import LocalStorage.

Implicit Types (env : Env) (localStorage : gmap jsstring jsstring).
Implicit Types (user : jsstring) (l : list (AnalysisRecord T)).

(** *** Listing *)

Lemma getUserAnalyses_returns env localStorage user :
  exists l, getUserAnalyses env localStorage user = Returned l.
Proof.
  unfold getUserAnalyses, localStorage_getItem.
  destruct (window_defined env); simpl; [| by eexists].
  destruct (blank user); [by eexists |].
  destruct (getItem_fault env); simpl; [by eexists |].
  destruct (truthy_str _); [| by eexists].
  destruct (JSON_parse _); simpl; by eexists.
Qed.

Lemma getUserAnalyses_no_window env localStorage user :
  window_defined env = false ->
  getUserAnalyses env localStorage user = Returned [].
Proof. intros W. unfold getUserAnalyses. by rewrite W. Qed.

Lemma getUserAnalyses_blank env localStorage user :
  blank user = true -> getUserAnalyses env localStorage user = Returned [].
Proof.
  intros B. unfold getUserAnalyses. rewrite B. by destruct (window_defined env).
Qed.

Lemma getUserAnalyses_fault env localStorage user (e : Thrown) :
  getItem_fault env = Some e ->
  getUserAnalyses env localStorage user = Returned [].
Proof.
  intros F. unfold getUserAnalyses, localStorage_getItem. rewrite F.
  destruct (window_defined env), (blank user); reflexivity.
Qed.

Lemma getUserAnalyses_absent env localStorage user :
  localStorage !! getStorageKey user = None ->
  getUserAnalyses env localStorage user = Returned [].
Proof.
  intros N. unfold getUserAnalyses, localStorage_getItem. rewrite N.
  destruct (window_defined env), (blank user), (getItem_fault env); reflexivity.
Qed.

Lemma getUserAnalyses_unparsable env localStorage user (s : jsstring) (e : Thrown) :
  localStorage !! getStorageKey user = Some s ->
  JSON_parse s = Raised e ->
  getUserAnalyses env localStorage user = Returned [].
Proof.
  intros S P. unfold getUserAnalyses, localStorage_getItem. rewrite S.
  destruct (window_defined env), (blank user), (getItem_fault env);
    simpl; try reflexivity.
  destruct s; simpl; [reflexivity |]. by rewrite P.
Qed.

(** What a listing returns was parsed from the user's key and sorted. *)
Lemma getUserAnalyses_inv env localStorage user l :
  getUserAnalyses env localStorage user = Returned l ->
  l = []
  \/ exists s parsed,
      localStorage !! getStorageKey user = Some s
      /\ JSON_parse s = Returned parsed
      /\ l = Array_sort newest_first parsed.
Proof.
  unfold getUserAnalyses, localStorage_getItem.
  destruct (window_defined env); simpl; [| intros [= <-]; by left].
  destruct (blank user); [intros [= <-]; by left |].
  destruct (getItem_fault env); simpl; [intros [= <-]; by left |].
  destruct (localStorage !! getStorageKey user) as [[|c s]|] eqn:S; simpl;
    try (intros [= <-]; by left).
  destruct (JSON_parse (c :: s)) as [parsed|e] eqn:P; simpl;
    intros [= <-]; [right | by left].
  by exists (c :: s), parsed.
Qed.

Lemma newest_first_order_sort l :
  newest_first_order timestamp (Array_sort newest_first l).
Proof.
  unfold newest_first_order.
  assert (S : StronglySorted (may_precede newest_first)
                (Array_sort newest_first l)).
  { apply Array_sort_StronglySorted; unfold may_precede, newest_first.
    - intros a b. lia.
    - intros a b c. lia. }
  induction S as [|a sorted S IH F]; constructor; [exact IH |].
  eapply Forall_impl; [exact F |].
  unfold may_precede, newest_first. intros b. simpl. lia.
Qed.

Lemma getUserAnalyses_newest_first env localStorage user l :
  getUserAnalyses env localStorage user = Returned l ->
  newest_first_order timestamp l.
Proof.
  intros [-> | (s & parsed & _ & _ & ->)]%getUserAnalyses_inv.
  - constructor.
  - apply newest_first_order_sort.
Qed.

End LocalStorageBackend.

Section LocalStorageSaving.
Context {T : Type} `{LocalStorage.Json T}.
Import LocalStorage.

Implicit Types (env : Env) (localStorage : gmap jsstring jsstring).
Implicit Types (user : jsstring) (l : list (AnalysisRecord T)).

Lemma saveAnalysisResult_no_window env localStorage user analysisType (result : T) :
  window_defined env = false ->
  saveAnalysisResult env localStorage user analysisType result
  = (Returned tt, localStorage).
Proof. intros W. unfold saveAnalysisResult, save_begin. by rewrite W. Qed.

Lemma saveAnalysisResult_blank env localStorage user analysisType (result : T) :
  window_defined env = true ->
  blank user = true ->
  saveAnalysisResult env localStorage user analysisType result
  = (Raised (new_Error required_message), localStorage).
Proof. intros W B. unfold saveAnalysisResult, save_begin. by rewrite W, B. Qed.

Lemma save_resume_fault env localStorage user analysisType (result : T)
    (awaited : outcome (list (AnalysisRecord T))) (e : Thrown) :
  setItem_fault env = Some e ->
  (exists l, awaited = Returned l) ->
  save_resume env localStorage user analysisType result awaited
  = (Raised (new_Error (failed_message e)), localStorage).
Proof.
  intros F [l ->]. unfold save_resume, localStorage_setItem. by rewrite F.
Qed.

Lemma save_resume_stores env localStorage user analysisType (result : T) l :
  setItem_fault env = None ->
  save_resume env localStorage user analysisType result (Returned l)
  = (Returned tt,
     <[getStorageKey user :=
         JSON_stringify (newAnalysis env user analysisType result :: l)]>
       localStorage).
Proof. intros F. unfold save_resume, localStorage_setItem. by rewrite F. Qed.

Lemma saveAnalysisResult_fault env localStorage user analysisType (result : T)
    (e : Thrown) :
  window_defined env = true ->
  blank user = false ->
  setItem_fault env = Some e ->
  saveAnalysisResult env localStorage user analysisType result
  = (Raised (new_Error (failed_message e)), localStorage).
Proof.
  intros W B F. unfold saveAnalysisResult, save_begin. rewrite W, B. simpl.
  apply save_resume_fault; [exact F |]. apply getUserAnalyses_returns.
Qed.

Lemma saveAnalysisResult_stores env localStorage user analysisType (result : T) :
  window_defined env = true ->
  blank user = false ->
  setItem_fault env = None ->
  exists existing,
    getUserAnalyses env localStorage user = Returned existing
    /\ saveAnalysisResult env localStorage user analysisType result
       = (Returned tt,
          <[getStorageKey user :=
              JSON_stringify
                (newAnalysis env user analysisType result :: existing)]>
            localStorage).
Proof.
  intros W B F. unfold saveAnalysisResult, save_begin. rewrite W, B. simpl.
  destruct (getUserAnalyses_returns env localStorage user) as [existing E].
  exists existing. split; [exact E |]. rewrite E.
  by apply save_resume_stores.
Qed.

(** A save leaves the storage as it was, or writes the user's key. *)
Lemma saveAnalysisResult_storage env localStorage user analysisType (result : T) :
  let after :=
    snd (saveAnalysisResult env localStorage user analysisType result) in
  after = localStorage
  \/ exists existing,
      getUserAnalyses env localStorage user = Returned existing
      /\ after
         = <[getStorageKey user :=
               JSON_stringify
                 (newAnalysis env user analysisType result :: existing)]>
             localStorage.
Proof.
  simpl.
  destruct (window_defined env) eqn:W;
    [| rewrite saveAnalysisResult_no_window by exact W; by left].
  destruct (blank user) eqn:B;
    [rewrite saveAnalysisResult_blank by assumption; by left |].
  destruct (setItem_fault env) as [e|] eqn:F;
    [rewrite (saveAnalysisResult_fault _ _ _ _ _ e) by assumption; by left |].
  destruct (saveAnalysisResult_stores env localStorage user analysisType result
              W B F) as (existing & E & ->).
  right. by exists existing.
Qed.

(** The two error messages of a save never coincide. *)
Lemma failed_message_not_required (e : Thrown) :
  failed_message e <> required_message.
Proof. unfold failed_message. intros E. vm_compute in E. discriminate E. Qed.

End LocalStorageSaving.

Section LocalStorageSerializable.
Context {T : Type} `{LocalStorage.JsonSerializable T}.
Import LocalStorage.

Implicit Types (env : Env) (localStorage : gmap jsstring jsstring).
Implicit Types (user : jsstring) (l : list (AnalysisRecord T)).

Lemma getUserAnalyses_stored env localStorage user l :
  window_defined env = true ->
  blank user = false ->
  getItem_fault env = None ->
  localStorage !! getStorageKey user = Some (JSON_stringify l) ->
  getUserAnalyses env localStorage user
  = Returned (Array_sort newest_first l).
Proof.
  intros W B F S. unfold getUserAnalyses, localStorage_getItem.
  rewrite W, B, F, S. simpl.
  pose proof (JSON_stringify_truthy l) as Tr.
  destruct (JSON_stringify l) as [|c s] eqn:E; [discriminate Tr |]. simpl.
  rewrite <- E, JSON_parse_stringify. reflexivity.
Qed.

(** *** Save, then list *)

Lemma save_then_list env env' localStorage user analysisType (result : T) :
  window_defined env = true ->
  blank user = false ->
  setItem_fault env = None ->
  window_defined env' = true ->
  getItem_fault env' = None ->
  exists after l,
    saveAnalysisResult env localStorage user analysisType result
    = (Returned tt, after)
    /\ getUserAnalyses env' after user = Returned l
    /\ newAnalysis env user analysisType result ∈ l.
Proof.
  intros W B F W' F'.
  destruct (saveAnalysisResult_stores env localStorage user analysisType result
              W B F) as (existing & _ & S).
  eexists _, _. split; [exact S |]. split.
  - apply getUserAnalyses_stored; try assumption. apply lookup_insert_eq.
  - apply Array_sort_elem_of. by left.
Qed.

(** *** Every key holds records of its own user *)

Lemma owned_empty : owned ∅.
Proof. intros user s E. by rewrite lookup_empty in E. Qed.

Lemma owned_listing env localStorage user l :
  owned localStorage ->
  getUserAnalyses env localStorage user = Returned l ->
  Forall (fun r => userId r = user) l.
Proof.
  intros O [-> | (s & parsed & S & P & ->)]%getUserAnalyses_inv;
    [constructor |].
  destruct (O user s S) as (l & -> & U).
  rewrite JSON_parse_stringify in P. injection P as <-.
  by rewrite Array_sort_Permutation.
Qed.

Lemma owned_save env localStorage user analysisType (result : T) :
  owned localStorage ->
  owned (snd (saveAnalysisResult env localStorage user analysisType result)).
Proof.
  intros O.
  destruct (saveAnalysisResult_storage env localStorage user analysisType result)
    as [-> | (existing & E & ->)]; [exact O |].
  intros user' s. destruct (decide (user = user')) as [<- | N].
  - rewrite lookup_insert_eq. intros [= <-]. eexists. split; [reflexivity |].
    constructor; [reflexivity |]. by eapply owned_listing.
  - rewrite lookup_insert_ne; [apply O |].
    intros K. by apply getStorageKey_inj in K.
Qed.

Lemma owned_saves localStorage
    (calls : list (Env * jsstring * AnalysisType * T)) :
  owned localStorage -> owned (saves localStorage calls).
Proof.
  revert localStorage.
  induction calls as [|[[[env user] analysisType] result] calls IH];
    intros localStorage O; simpl; [exact O |].
  by apply IH, owned_save.
Qed.

(** The same for invocations that overlap in any way. *)
Lemma page_owned_step (page : Page (T := T)) (job : Job) :
  page_owned page -> page_owned (step page job).
Proof.
  intros [O A]. destruct job as [env user analysisType result | n]; simpl.
  - split; [exact O |]. simpl. apply Forall_app. split; [exact A |].
    constructor; [| constructor]. unfold save_begin.
    destruct (window_defined env); simpl; [| exact I].
    destruct (blank user); [exact I |].
    intros l L. by eapply owned_listing.
  - destruct (invocations page !! n) as [[settlement | env user analysisType result awaited]|] eqn:E;
      try (by split).
    pose proof (Forall_lookup_1 _ _ _ _ A E) as U. simpl in U.
    unfold save_resume, localStorage_setItem.
    destruct awaited as [l|e]; simpl.
    + destruct (setItem_fault env); simpl.
      * split; [exact O |]. simpl. by apply Forall_insert.
      * split; [| simpl; by apply Forall_insert].
        simpl. intros user' s. destruct (decide (user = user')) as [<- | N].
        -- rewrite lookup_insert_eq. intros [= <-]. eexists.
           split; [reflexivity |]. constructor; [reflexivity | by apply U].
        -- rewrite lookup_insert_ne; [apply O |].
           intros K. by apply getStorageKey_inj in K.
    + split; [exact O |]. simpl. by apply Forall_insert.
Qed.

Lemma page_owned_run (page : Page (T := T)) (jobs : list Job) :
  page_owned page -> page_owned (run page jobs).
Proof.
  revert page. induction jobs as [|job jobs IH]; intros page O; [exact O |].
  apply IH, page_owned_step, O.
Qed.

End LocalStorageSerializable.

(** *** Blank user ids *)

Lemma trim_start_nil (s : jsstring) :
  trim_start s = [] <-> Forall (fun c => is_white_space c = true) s.
Proof.
  induction s as [|c s IH]; simpl.
  - split; [constructor | reflexivity].
  - destruct (is_white_space c) eqn:W.
    + rewrite IH. split; [by constructor | by inversion 1].
    + split; [discriminate |]. inversion 1; congruence.
Qed.

Lemma trim_start_suffix (s : jsstring) :
  exists dropped,
    s = dropped ++ trim_start s
    /\ Forall (fun c => is_white_space c = true) dropped.
Proof.
  induction s as [|c s (dropped & E & F)]; simpl.
  - by exists [].
  - destruct (is_white_space c) eqn:W.
    + exists (c :: dropped). split; [simpl; congruence | by constructor].
    + by exists [].
Qed.

(** [blank] holds of the empty string and of the strings made of white
    space only. *)
Lemma blank_iff (s : jsstring) :
  blank s = true <-> Forall (fun c => is_white_space c = true) s.
Proof.
  unfold blank, trim. split.
  - intros B. destruct s as [|c s]; [constructor |]. simpl truthy at 1 in B.
    simpl negb at 1 in B. rewrite orb_false_l in B.
    apply negb_true_iff in B.
    assert (E : rev (trim_start (rev (trim_start (c :: s)))) = [])
      by (destruct (rev _); [reflexivity | discriminate B]).
    apply (f_equal (@rev N)) in E. rewrite rev_involutive in E. simpl in E.
    apply trim_start_nil, Forall_rev in E. rewrite rev_involutive in E.
    destruct (trim_start_suffix (c :: s)) as (dropped & S & F).
    rewrite S. apply Forall_app. split; [exact F | exact E].
  - intros F. apply trim_start_nil in F. rewrite F. simpl.
    apply orb_true_r.
Qed.

Example blank_examples :
  blank [] = true /\ blank (lit "   ") = true /\ blank [160; 9; 8232]%N = true
  /\ blank (lit " u1 ") = false /\ blank u1 = false.
Proof. repeat split; reflexivity. Qed.

(** *** Invocations that overlap *)

Section Overlap.
Context {T : Type} `{LocalStorage.JsonSerializable T}.
Import LocalStorage.

(** Two saves for one user, both begun before either resumes: each has read
    the storage as it was, and the second write replaces the first. *)
Lemma overlapping_saves (env1 env2 : Env)
    (localStorage : gmap jsstring jsstring) (user : jsstring)
    (type1 type2 : AnalysisType) (result1 result2 : T)
    (existing : list (AnalysisRecord T)) :
  window_defined env1 = true -> window_defined env2 = true ->
  blank user = false ->
  setItem_fault env1 = None -> setItem_fault env2 = None ->
  getUserAnalyses env1 localStorage user = Returned existing ->
  getUserAnalyses env2 localStorage user = Returned existing ->
  run {| storage := localStorage; invocations := [] |}
    [Invoke env1 user type1 result1; Invoke env2 user type2 result2;
     Resume 0; Resume 1]
  = {| storage :=
         <[getStorageKey user :=
             JSON_stringify (newAnalysis env2 user type2 result2 :: existing)]>
           localStorage;
       invocations := [Settled (Returned tt); Settled (Returned tt)] |}.
Proof.
  intros W1 W2 B F1 F2 E1 E2.
  unfold run. simpl. unfold save_begin. rewrite W1, W2, B, E1, E2. simpl.
  rewrite save_resume_stores by exact F1. simpl.
  rewrite save_resume_stores by exact F2. simpl.
  by rewrite insert_insert_eq.
Qed.

(** The same two saves, the second begun after the first has finished. *)
Lemma consecutive_saves (env1 env2 : Env) (user : jsstring)
    (type1 type2 : AnalysisType) (result1 result2 : T) :
  window_defined env1 = true -> window_defined env2 = true ->
  blank user = false ->
  getItem_fault env2 = None ->
  setItem_fault env1 = None -> setItem_fault env2 = None ->
  exists l,
    getUserAnalyses env2
      (storage
         (run {| storage := ∅; invocations := [] |}
            [Invoke env1 user type1 result1; Resume 0;
             Invoke env2 user type2 result2; Resume 1])) user
    = Returned l
    /\ newAnalysis env1 user type1 result1 ∈ l
    /\ newAnalysis env2 user type2 result2 ∈ l.
Proof.
  intros W1 W2 B G2 F1 F2.
  unfold run. simpl. unfold save_begin. rewrite W1, W2, B. simpl.
  rewrite (getUserAnalyses_absent env1 ∅ user) by apply lookup_empty.
  rewrite save_resume_stores by exact F1. simpl.
  rewrite (getUserAnalyses_stored env2
             (<[getStorageKey user :=
                  JSON_stringify [newAnalysis env1 user type1 result1]]> ∅)
             user [newAnalysis env1 user type1 result1])
    by (try assumption; apply lookup_insert_eq).
  simpl. rewrite save_resume_stores by exact F2. simpl.
  eexists. split.
  - apply getUserAnalyses_stored; try assumption. apply lookup_insert_eq.
  - rewrite !Array_sort_elem_of. split; [right; left | left].
Qed.

End Overlap.

(** ** The store: listing *)

(** C2, as the code has it: a user without saved records gets the empty
    list from either backend; the localStorage backend never raises, and a
    fault of [getItem] (or text that does not parse) gives the empty list;
    the Firestore backend passes a fault of the query on to its caller. *)
Theorem listing_without_records_or_faulty {T : Type} `{LocalStorage.Json T}
    (env : LocalStorage.Env) (localStorage : gmap jsstring jsstring)
    (backend : Firestore.Env) (analyses : list (Firestore.Document T))
    (user : jsstring) :
  (localStorage !! LocalStorage.getStorageKey user = None ->
   LocalStorage.getUserAnalyses env localStorage user = Returned [])
  /\ (blank user = true ->
      LocalStorage.getUserAnalyses env localStorage user = Returned [])
  /\ (is_Some (LocalStorage.getItem_fault env) ->
      LocalStorage.getUserAnalyses env localStorage user = Returned [])
  /\ (forall s e,
        localStorage !! LocalStorage.getStorageKey user = Some s ->
        LocalStorage.JSON_parse s = Raised e ->
        LocalStorage.getUserAnalyses env localStorage user = Returned [])
  /\ (exists l, LocalStorage.getUserAnalyses env localStorage user = Returned l)
  /\ (Firestore.fault backend = None ->
      (forall d, d ∈ analyses -> Firestore.data_userId d <> user) ->
      Firestore.getUserAnalyses backend analyses user = Returned [])
  /\ (forall e, Firestore.fault backend = Some e ->
      Firestore.getUserAnalyses backend analyses user = Raised e).
Proof.
  repeat split.
  - apply getUserAnalyses_absent.
  - apply getUserAnalyses_blank.
  - intros [e F]. by eapply getUserAnalyses_fault.
  - apply getUserAnalyses_unparsable.
  - apply getUserAnalyses_returns.
  - apply firestore_getUserAnalyses_unknown.
  - apply firestore_getUserAnalyses_fault.
Qed.

Lemma listing_without_records_or_faulty_witness :
  LocalStorage.getUserAnalyses (T := jsstring) browser ∅ u1 = Returned []
  /\ LocalStorage.getUserAnalyses (T := jsstring) locked_browser
       {[ LocalStorage.getStorageKey u1 := lit "[]" ]} u1 = Returned []
  /\ Firestore.getUserAnalyses (T := jsstring) online [] u1 = Returned []
  /\ Firestore.getUserAnalyses (T := jsstring) offline [] u1
     = Raised unavailable.
Proof.
  destruct (listing_without_records_or_faulty (T := jsstring)
              browser ∅ online [] u1) as (Absent & _ & _ & _ & _ & Unknown & _).
  destruct (listing_without_records_or_faulty (T := jsstring)
              locked_browser {[ LocalStorage.getStorageKey u1 := lit "[]" ]}
              offline [] u1) as (_ & _ & Faulty & _ & _ & _ & Passed).
  split; [| split; [| split]].
  - apply Absent, lookup_empty.
  - apply Faulty. by eexists.
  - apply Unknown; [reflexivity |]. intros d D. by apply elem_of_nil in D.
  - apply Passed. reflexivity.
Defined.

(** C2 as stated fails at the Firestore backend: with the backend
    unavailable the listing raises, it is not the empty list. *)
Lemma firestore_listing_raises :
  Firestore.getUserAnalyses (T := jsstring) offline [] u1 = Raised unavailable
  /\ Firestore.getUserAnalyses (T := jsstring) offline [] u1 <> Returned [].
Proof. split; [reflexivity | discriminate]. Qed.

(** ** The store: save, then list *)

(** C3, as the code has it: in a browser, for a user id that is not blank
    and a result that survives serialization, a save whose [setItem] does
    not fail returns, and a listing whose [getItem] does not fail then
    contains a record with that result, that analysis type and that user. *)
Theorem save_then_list_round_trip {T : Type} `{LocalStorage.JsonSerializable T}
    (saving listing : LocalStorage.Env) (localStorage : gmap jsstring jsstring)
    (user : jsstring) (analysisType : AnalysisType) (result : T) :
  LocalStorage.window_defined saving = true ->
  blank user = false ->
  LocalStorage.setItem_fault saving = None ->
  LocalStorage.window_defined listing = true ->
  LocalStorage.getItem_fault listing = None ->
  exists after l r,
    LocalStorage.saveAnalysisResult saving localStorage user analysisType result
    = (Returned tt, after)
    /\ LocalStorage.getUserAnalyses listing after user = Returned l
    /\ r ∈ l
    /\ LocalStorage.result r = result
    /\ LocalStorage.analysisType r = analysisType
    /\ LocalStorage.userId r = user.
Proof.
  intros W B F W' F'.
  destruct (save_then_list saving listing localStorage user analysisType result
              W B F W' F') as (after & l & S & L & I).
  exists after, l, (LocalStorage.newAnalysis saving user analysisType result).
  repeat split; assumption.
Qed.

Lemma save_then_list_round_trip_witness :
  blank u1 = false
  /\ exists after l r,
      LocalStorage.saveAnalysisResult browser ∅ u1 symptomChecks (lit "migraine")
      = (Returned tt, after)
      /\ LocalStorage.getUserAnalyses browser_later after u1 = Returned l
      /\ r ∈ l
      /\ LocalStorage.result r = lit "migraine"
      /\ LocalStorage.analysisType r = symptomChecks
      /\ LocalStorage.userId r = u1.
Proof.
  split; [reflexivity |].
  apply (save_then_list_round_trip (T := jsstring) browser browser_later ∅ u1
           symptomChecks (lit "migraine"));
    reflexivity.
Defined.

(** C3 as stated fails for a user id that is not empty but blank: the save
    is rejected, and the listing that follows is empty.  It fails as well
    where [window] is undefined: the save returns, and the listing that
    follows is empty. *)
Lemma blank_user_not_saved :
  lit " " <> []
  /\ LocalStorage.saveAnalysisResult browser ∅ (lit " ") symptomChecks
       (lit "migraine")
     = (Raised (new_Error LocalStorage.required_message), ∅)
  /\ LocalStorage.getUserAnalyses (T := jsstring) browser_later
       (snd (LocalStorage.saveAnalysisResult browser ∅ (lit " ") symptomChecks
               (lit "migraine")))
       (lit " ")
     = Returned []
  /\ LocalStorage.saveAnalysisResult server ∅ u1 symptomChecks (lit "migraine")
     = (Returned tt, ∅)
  /\ LocalStorage.getUserAnalyses (T := jsstring) server
       (snd (LocalStorage.saveAnalysisResult server ∅ u1 symptomChecks
               (lit "migraine")))
       u1
     = Returned [].
Proof. split; [discriminate |]. repeat split; reflexivity. Qed.

(** ** The store: isolation of users *)

(** C6: after any sequence of saves, a listing for [userB] holds records of
    [userB] only: no record saved for another user [userA] appears in it,
    in either backend; in the localStorage backend also when the saves
    overlap in any way. *)
Theorem cross_user_isolation {T : Type} `{LocalStorage.JsonSerializable T}
    (userA userB : jsstring)
    (calls : list (LocalStorage.Env * jsstring * AnalysisType * T))
    (jobs : list (LocalStorage.Job (T := T)))
    (listing : LocalStorage.Env)
    (requests : list (Firestore.Env * jsstring * AnalysisType * T))
    (backend : Firestore.Env) :
  userA <> userB ->
  (forall l,
      LocalStorage.getUserAnalyses listing (LocalStorage.saves ∅ calls) userB
      = Returned l ->
      (forall r, r ∈ l -> LocalStorage.userId r = userB)
      /\ (forall saving analysisType result,
            LocalStorage.newAnalysis saving userA analysisType result ∉ l))
  /\ (forall l,
        LocalStorage.getUserAnalyses listing
          (LocalStorage.storage
             (LocalStorage.run
                {| LocalStorage.storage := ∅; LocalStorage.invocations := [] |}
                jobs)) userB
        = Returned l ->
        (forall r, r ∈ l -> LocalStorage.userId r = userB)
        /\ (forall saving analysisType result,
              LocalStorage.newAnalysis saving userA analysisType result ∉ l))
  /\ (forall l,
        Firestore.getUserAnalyses backend (Firestore.saves [] requests) userB
        = Returned l ->
        (forall r, r ∈ l -> Firestore.userId r = userB)
        /\ (forall r, Firestore.userId r = userA -> r ∉ l)).
Proof.
  intros N.
  assert (Local : forall localStorage l,
             owned localStorage ->
             LocalStorage.getUserAnalyses listing localStorage userB
             = Returned l ->
             (forall r, r ∈ l -> LocalStorage.userId r = userB)
             /\ (forall saving analysisType result,
                   LocalStorage.newAnalysis saving userA analysisType result
                   ∉ l)).
  { intros localStorage l O L.
    assert (U : Forall (fun r => LocalStorage.userId r = userB) l)
      by (by eapply owned_listing).
    rewrite Forall_forall in U. split; [exact U |].
    intros saving analysisType result I. apply U in I. simpl in I.
    congruence. }
  split; [| split]; intros l L.
  - eapply Local; [| exact L]. apply owned_saves, owned_empty.
  - eapply Local; [| exact L].
    apply (page_owned_run
             {| LocalStorage.storage := ∅; LocalStorage.invocations := [] |}).
    split; [apply owned_empty | constructor].
  - assert (U : forall r, r ∈ l -> Firestore.userId r = userB)
      by (intros r; by eapply firestore_getUserAnalyses_userId).
    split; [exact U |]. intros r A I. apply U in I. congruence.
Qed.

Lemma cross_user_isolation_witness :
  u1 <> u2
  /\ (forall l,
        LocalStorage.getUserAnalyses browser_later
          (LocalStorage.saves ∅
             [(browser, u1, imageAnalyses, lit "eczema");
              (browser_later, u2, symptomChecks, lit "migraine")]) u2
        = Returned l ->
        LocalStorage.newAnalysis browser u1 imageAnalyses (lit "eczema") ∉ l)
  /\ (forall l,
        Firestore.getUserAnalyses online
          (Firestore.saves []
             [(first_save, u1, imageAnalyses, lit "eczema");
              (second_save, u2, symptomChecks, lit "migraine")]) u2
        = Returned l ->
        forall r, Firestore.userId r = u1 -> r ∉ l).
Proof.
  assert (N : u1 <> u2) by discriminate.
  destruct (cross_user_isolation (T := jsstring) u1 u2
              [(browser, u1, imageAnalyses, lit "eczema");
               (browser_later, u2, symptomChecks, lit "migraine")]
              two_saves_at_once
              browser_later
              [(first_save, u1, imageAnalyses, lit "eczema");
               (second_save, u2, symptomChecks, lit "migraine")]
              online N) as (Local & _ & Remote).
  split; [exact N |]. split.
  - intros l L. apply (Local l L).
  - intros l L. apply (Remote l L).
Defined.

(** ** The store: rejected and failed saves *)

(** C7, as the code has it: in a browser the localStorage backend rejects
    a save for an empty or white-space-only user id with the validation
    error and writes nothing; a fault of [setItem] reaches the caller as an
    error with another message, and nothing is written; the Firestore
    backend passes a fault of [addDoc] on and the collection is as it was. *)
Theorem save_rejected_or_failed {T : Type} `{LocalStorage.Json T}
    (env : LocalStorage.Env) (localStorage : gmap jsstring jsstring)
    (backend : Firestore.Env) (analyses : list (Firestore.Document T))
    (user : jsstring) (analysisType : AnalysisType) (result : T) (e : Thrown) :
  (LocalStorage.window_defined env = true ->
   Forall (fun c => is_white_space c = true) user ->
   LocalStorage.saveAnalysisResult env localStorage user analysisType result
   = (Raised (new_Error LocalStorage.required_message), localStorage))
  /\ (LocalStorage.window_defined env = true ->
      ~ Forall (fun c => is_white_space c = true) user ->
      LocalStorage.setItem_fault env = Some e ->
      LocalStorage.saveAnalysisResult env localStorage user analysisType result
      = (Raised (new_Error (LocalStorage.failed_message e)), localStorage)
      /\ new_Error (LocalStorage.failed_message e)
         <> new_Error LocalStorage.required_message)
  /\ (Firestore.fault backend = Some e ->
      Firestore.saveAnalysis backend analyses user analysisType result
      = (Raised e, analyses)).
Proof.
  split; [| split].
  - intros W B. apply blank_iff in B. by apply saveAnalysisResult_blank.
  - intros W B F. split.
    + apply saveAnalysisResult_fault; [exact W | | exact F].
      destruct (blank user) eqn:E; [| reflexivity].
      by apply blank_iff in E.
    + intros E. apply (failed_message_not_required e).
      unfold new_Error in E. congruence.
  - apply firestore_saveAnalysis_fault.
Qed.

Lemma save_rejected_or_failed_witness :
  LocalStorage.saveAnalysisResult browser ∅ (lit "  ") symptomChecks
    (lit "migraine")
  = (Raised (new_Error LocalStorage.required_message), ∅)
  /\ LocalStorage.saveAnalysisResult full_browser ∅ u1 symptomChecks
       (lit "migraine")
     = (Raised (new_Error (LocalStorage.failed_message quota_exceeded)), ∅)
  /\ Firestore.saveAnalysis offline [] u1 symptomChecks (lit "migraine")
     = (Raised unavailable, []).
Proof.
  destruct (save_rejected_or_failed (T := jsstring) browser ∅ offline []
              (lit "  ") symptomChecks (lit "migraine") unavailable)
    as (Rejected & _ & Passed).
  destruct (save_rejected_or_failed (T := jsstring) full_browser ∅ offline []
              u1 symptomChecks (lit "migraine") quota_exceeded)
    as (_ & Failed & _).
  split; [| split].
  - apply Rejected; [reflexivity |]. repeat constructor.
  - refine (proj1 (Failed eq_refl _ eq_refl)).
    intros B. apply Forall_inv in B. discriminate B.
  - apply Passed. reflexivity.
Defined.

(** C7 as stated fails at the Firestore backend: a save for the empty user
    id is not rejected, and the document is added.  It fails as well at the
    localStorage backend where [window] is undefined: the save for the empty
    user id returns without an error. *)
Lemma empty_user_not_rejected :
  Firestore.saveAnalysis online [] [] symptomChecks (lit "migraine")
  = (Returned tt,
     [ {| Firestore.doc_id := Firestore.auto_id online;
          Firestore.data_userId := [];
          Firestore.data_analysisType := symptomChecks;
          Firestore.data_timestamp := Firestore.now online;
          Firestore.data_result := lit "migraine" |} ])
  /\ LocalStorage.saveAnalysisResult server ∅ [] symptomChecks (lit "migraine")
     = (Returned tt, ∅).
Proof. split; reflexivity. Qed.

(** A fault of [getItem] alone during a save does not reach the caller:
    the listing inside the save turns it into the empty list, and the save
    goes on to write the new record as the whole history. *)
Lemma read_fault_during_save {T : Type} `{LocalStorage.Json T}
    (env : LocalStorage.Env) (localStorage : gmap jsstring jsstring)
    (user : jsstring) (analysisType : AnalysisType) (result : T) (e : Thrown) :
  LocalStorage.window_defined env = true ->
  blank user = false ->
  LocalStorage.getItem_fault env = Some e ->
  LocalStorage.setItem_fault env = None ->
  LocalStorage.saveAnalysisResult env localStorage user analysisType result
  = (Returned tt,
     <[LocalStorage.getStorageKey user :=
         LocalStorage.JSON_stringify
           [LocalStorage.newAnalysis env user analysisType result]]>
       localStorage).
Proof.
  intros W B G S.
  destruct (saveAnalysisResult_stores env localStorage user analysisType result
              W B S) as (existing & E & ->).
  rewrite (getUserAnalyses_fault env localStorage user e G) in E.
  by injection E as <-.
Qed.

(** ** The store: saves that overlap *)

(** C8 (localStorage backend): two saves for one user are invoked one after
    the other without awaiting the first.  Both report success, and the
    listing that follows holds the second record only: the first is lost. *)
Theorem overlapping_saves_lose_a_record :
  let page :=
    LocalStorage.run
      {| LocalStorage.storage := ∅; LocalStorage.invocations := [] |}
      two_saves_at_once in
  LocalStorage.invocations page
  = [LocalStorage.Settled (Returned tt); LocalStorage.Settled (Returned tt)]
  /\ LocalStorage.getUserAnalyses browser_later (LocalStorage.storage page) u1
     = Returned
         [LocalStorage.newAnalysis browser_later u1 symptomChecks
            (lit "migraine")]
  /\ LocalStorage.newAnalysis browser u1 imageAnalyses (lit "eczema")
     ∉ [LocalStorage.newAnalysis browser_later u1 symptomChecks
          (lit "migraine")].
Proof.
  unfold two_saves_at_once. cbv zeta.
  rewrite (overlapping_saves browser browser_later ∅ u1 imageAnalyses
             symptomChecks (lit "eczema") (lit "migraine") [])
    by reflexivity.
  simpl. split; [reflexivity |]. split.
  - rewrite (getUserAnalyses_stored browser_later _ u1
               [LocalStorage.newAnalysis browser_later u1 symptomChecks
                  (lit "migraine")])
      by (try reflexivity; apply lookup_insert_eq).
    reflexivity.
  - intros I. apply list_elem_of_singleton in I. discriminate I.
Qed.

(** ** The store: no [window] *)

(** C10: where [window] is undefined, [saveAnalysisResult] returns without
    an error and leaves the storage as it was, whatever the user id, and
    [getUserAnalyses] returns the empty list. *)
Theorem without_window_nothing_is_saved {T : Type} `{LocalStorage.Json T}
    (env : LocalStorage.Env) (localStorage : gmap jsstring jsstring)
    (user : jsstring) (analysisType : AnalysisType) (result : T) :
  LocalStorage.window_defined env = false ->
  LocalStorage.saveAnalysisResult env localStorage user analysisType result
  = (Returned tt, localStorage)
  /\ LocalStorage.getUserAnalyses env localStorage user = Returned []
  /\ LocalStorage.getUserAnalyses env
       (snd (LocalStorage.saveAnalysisResult env localStorage user
               analysisType result)) user
     = Returned [].
Proof.
  intros W. split; [by apply saveAnalysisResult_no_window |].
  split; by apply getUserAnalyses_no_window.
Qed.

Lemma without_window_nothing_is_saved_witness :
  LocalStorage.window_defined server = false
  /\ LocalStorage.saveAnalysisResult server ∅ u1 symptomChecks (lit "migraine")
     = (Returned tt, ∅)
  /\ LocalStorage.getUserAnalyses (T := jsstring) server ∅ u1 = Returned [].
Proof.
  split; [reflexivity |].
  destruct (without_window_nothing_is_saved (T := jsstring) server ∅ u1
              symptomChecks (lit "migraine") eq_refl) as (S & L & _).
  split; assumption.
Defined.

(** * Further properties of the store *)

Section SortedInput.
Context {A : Type} (compareFn : A -> A -> Z).

(** Sorting leaves an ordered array as it is. *)
Lemma Array_sort_ordered (l : list A) :
  StronglySorted (may_precede compareFn) l -> Array_sort compareFn l = l.
Proof.
  induction 1 as [|x l S IH F]; simpl; [reflexivity |].
  rewrite IH. destruct F as [|y l' B F]; simpl; [reflexivity |].
  unfold may_precede in B.
  destruct (Z.leb_spec (compareFn x y) 0); [reflexivity | lia].
Qed.

End SortedInput.

Section LocalStorageFurther.
Context {T : Type} `{LocalStorage.Json T}.
Import LocalStorage.

Implicit Types (env : Env) (localStorage : gmap jsstring jsstring).
Implicit Types (user : jsstring) (l : list (AnalysisRecord T)).

(** A listing looks at the user's key only, and at nothing of the host but
    [window] and the fault of [getItem]. *)
Lemma getUserAnalyses_ext env env' localStorage localStorage' user :
  window_defined env = window_defined env' ->
  getItem_fault env = getItem_fault env' ->
  localStorage !! getStorageKey user = localStorage' !! getStorageKey user ->
  getUserAnalyses env localStorage user = getUserAnalyses env' localStorage' user.
Proof.
  intros W G L. unfold getUserAnalyses, localStorage_getItem.
  by rewrite W, G, L.
Qed.

Lemma getUserAnalyses_ordered env localStorage user l :
  getUserAnalyses env localStorage user = Returned l ->
  StronglySorted (may_precede newest_first) l.
Proof.
  intros [-> | (s & parsed & _ & _ & ->)]%getUserAnalyses_inv; [constructor |].
  apply Array_sort_StronglySorted; unfold may_precede, newest_first.
  - intros a b. lia.
  - intros a b c. lia.
Qed.

End LocalStorageFurther.


(** X2: a save that succeeds puts the new record into the user's listing at
    its place in time: before the first record that is not newer.  When no
    earlier record is newer, the new record heads the listing and the rest
    follows as it was. *)
Theorem save_inserts_in_time_order {T : Type} `{LocalStorage.JsonSerializable T}
    (saving listing : LocalStorage.Env) (localStorage : gmap jsstring jsstring)
    (user : jsstring) (analysisType : AnalysisType) (result : T)
    (before : list (LocalStorage.AnalysisRecord T)) :
  LocalStorage.window_defined saving = true ->
  blank user = false ->
  LocalStorage.getItem_fault saving = None ->
  LocalStorage.setItem_fault saving = None ->
  LocalStorage.window_defined listing = true ->
  LocalStorage.getItem_fault listing = None ->
  LocalStorage.getUserAnalyses listing localStorage user = Returned before ->
  let added := LocalStorage.newAnalysis saving user analysisType result in
  let after :=
    snd (LocalStorage.saveAnalysisResult saving localStorage user analysisType
           result) in
  LocalStorage.getUserAnalyses listing after user
  = Returned (insert_sorted LocalStorage.newest_first added before)
  /\ ((forall r, r ∈ before ->
                 LocalStorage.timestamp r <= LocalStorage.stamp_time saving) ->
      LocalStorage.getUserAnalyses listing after user
      = Returned (added :: before)).
Proof.
  intros W B G S W' G' L added after.
  assert (E : LocalStorage.getUserAnalyses saving localStorage user
              = Returned before).
  { rewrite <- L. apply getUserAnalyses_ext; congruence. }
  assert (A : LocalStorage.getUserAnalyses listing after user
              = Returned (insert_sorted LocalStorage.newest_first added before)).
  { subst after.
    destruct (saveAnalysisResult_stores saving localStorage user analysisType
                result W B S) as (existing & E' & ->).
    rewrite E in E'. injection E' as <-. simpl.
    rewrite (getUserAnalyses_stored listing _ user (added :: before))
      by (try assumption; apply lookup_insert_eq).
    simpl. f_equal. f_equal. apply Array_sort_ordered.
    by eapply getUserAnalyses_ordered. }
  split; [exact A |].
  intros Newest. rewrite A. f_equal.
  destruct before as [|r before]; [reflexivity |]. simpl.
  assert (R : LocalStorage.timestamp r <= LocalStorage.stamp_time saving)
    by (apply Newest; left).
  unfold LocalStorage.newest_first at 1. subst added. simpl.
  destruct (Z.leb_spec (LocalStorage.timestamp r - LocalStorage.stamp_time saving) 0);
    [reflexivity | lia].
Qed.

Lemma save_inserts_in_time_order_witness :
  LocalStorage.getUserAnalyses browser_later
    (snd (LocalStorage.saveAnalysisResult browser_later
            (snd (LocalStorage.saveAnalysisResult browser ∅ u1 imageAnalyses
                    (lit "eczema")))
            u1 symptomChecks (lit "migraine")))
    u1
  = Returned
      [LocalStorage.newAnalysis browser_later u1 symptomChecks (lit "migraine");
       LocalStorage.newAnalysis browser u1 imageAnalyses (lit "eczema")].
Proof.
  assert (First : LocalStorage.getUserAnalyses browser_later
                    (snd (LocalStorage.saveAnalysisResult browser ∅ u1
                            imageAnalyses (lit "eczema"))) u1
                  = Returned
                      [LocalStorage.newAnalysis browser u1 imageAnalyses
                         (lit "eczema")]).
  { refine (proj2 (save_inserts_in_time_order (T := jsstring) browser
                     browser_later ∅ u1 imageAnalyses (lit "eczema") []
                     eq_refl eq_refl eq_refl eq_refl eq_refl eq_refl eq_refl)
              _).
    intros r R. by apply elem_of_nil in R. }
  refine (proj2 (save_inserts_in_time_order (T := jsstring) browser_later
                   browser_later _ u1 symptomChecks (lit "migraine") _
                   eq_refl eq_refl eq_refl eq_refl eq_refl eq_refl First)
            _).
  intros r R. apply list_elem_of_singleton in R. subst r. simpl. lia.
Defined.

(** X3: a save, whatever becomes of it, leaves every key but the user's own
    as it was, and with it the listing of every other user. *)
Theorem save_leaves_other_users {T : Type} `{LocalStorage.Json T}
    (saving listing : LocalStorage.Env) (localStorage : gmap jsstring jsstring)
    (user other : jsstring) (analysisType : AnalysisType) (result : T) :
  other <> user ->
  let after :=
    snd (LocalStorage.saveAnalysisResult saving localStorage user analysisType
           result) in
  (forall key, key <> LocalStorage.getStorageKey user ->
               after !! key = localStorage !! key)
  /\ LocalStorage.getUserAnalyses listing after other
     = LocalStorage.getUserAnalyses listing localStorage other.
Proof.
  intros N after.
  assert (K : forall key, key <> LocalStorage.getStorageKey user ->
                          after !! key = localStorage !! key).
  { intros key D. subst after.
    destruct (saveAnalysisResult_storage saving localStorage user analysisType
                result) as [-> | (existing & _ & ->)]; [reflexivity |].
    by apply lookup_insert_ne. }
  split; [exact K |].
  apply getUserAnalyses_ext; try reflexivity.
  apply K. intros E. by apply getStorageKey_inj in E.
Qed.

Lemma save_leaves_other_users_witness :
  u2 <> u1
  /\ LocalStorage.getUserAnalyses (T := jsstring) browser_later
       (snd (LocalStorage.saveAnalysisResult browser
               {[ LocalStorage.getStorageKey u2 := lit "[]" ]} u1 imageAnalyses
               (lit "eczema")))
       u2
     = LocalStorage.getUserAnalyses browser_later
         {[ LocalStorage.getStorageKey u2 := lit "[]" ]} u2.
Proof.
  assert (N : u2 <> u1) by discriminate.
  split; [exact N |].
  apply (save_leaves_other_users (T := jsstring) browser browser_later
           {[ LocalStorage.getStorageKey u2 := lit "[]" ]} u1 u2 imageAnalyses
           (lit "eczema") N).
Defined.

(** X4: when [getItem] fails during a save and [setItem] does not, the save
    reports success and the user's earlier records are gone: the listing
    that follows holds the new record alone. *)
Theorem read_fault_save_replaces_history {T : Type}
    `{LocalStorage.JsonSerializable T}
    (saving listing : LocalStorage.Env) (localStorage : gmap jsstring jsstring)
    (user : jsstring) (analysisType : AnalysisType) (result : T) (e : Thrown) :
  LocalStorage.window_defined saving = true ->
  blank user = false ->
  LocalStorage.getItem_fault saving = Some e ->
  LocalStorage.setItem_fault saving = None ->
  LocalStorage.window_defined listing = true ->
  LocalStorage.getItem_fault listing = None ->
  exists after,
    LocalStorage.saveAnalysisResult saving localStorage user analysisType result
    = (Returned tt, after)
    /\ LocalStorage.getUserAnalyses listing after user
       = Returned [LocalStorage.newAnalysis saving user analysisType result].
Proof.
  intros W B G S W' G'. eexists. split.
  - by eapply read_fault_during_save.
  - rewrite (getUserAnalyses_stored listing _ user
               [LocalStorage.newAnalysis saving user analysisType result])
      by (try assumption; apply lookup_insert_eq).
    reflexivity.
Qed.

Lemma read_fault_save_replaces_history_witness :
  exists after,
    LocalStorage.saveAnalysisResult
      {| LocalStorage.window_defined := true;
         LocalStorage.getItem_fault := Some access_denied;
         LocalStorage.setItem_fault := None;
         LocalStorage.id_time := 1700000060000;
         LocalStorage.random_suffix := lit "p7m2c5v8b";
         LocalStorage.stamp_time := 1700000060001 |}
      (snd (LocalStorage.saveAnalysisResult browser ∅ u1 imageAnalyses
              (lit "eczema")))
      u1 symptomChecks (lit "migraine")
    = (Returned tt, after)
    /\ length
         (match LocalStorage.getUserAnalyses (T := jsstring) browser_later after
                  u1 with
          | Returned l => l
          | Raised _ => []
          end)
       = 1%nat.
Proof.
  destruct (read_fault_save_replaces_history (T := jsstring)
              {| LocalStorage.window_defined := true;
                 LocalStorage.getItem_fault := Some access_denied;
                 LocalStorage.setItem_fault := None;
                 LocalStorage.id_time := 1700000060000;
                 LocalStorage.random_suffix := lit "p7m2c5v8b";
                 LocalStorage.stamp_time := 1700000060001 |}
              browser_later
              (snd (LocalStorage.saveAnalysisResult browser ∅ u1 imageAnalyses
                      (lit "eczema")))
              u1 symptomChecks (lit "migraine") access_denied
              eq_refl eq_refl eq_refl eq_refl eq_refl eq_refl)
    as (after & S & L).
  exists after. split; [exact S |]. by rewrite L.
Defined.

(** ** Further properties of the Firestore backend *)

Section FirestoreFurther.
Context {T : Type}.
Import Firestore.

Lemma place_split (d : Document T) (analyses : list (Document T)) :
  exists front back,
    analyses = front ++ back /\ place d analyses = front ++ d :: back.
Proof.
  induction analyses as [|x l (front & back & -> & P)]; simpl.
  - by exists [], [].
  - destruct (id_leb (doc_id d) (doc_id x)).
    + by exists [], (x :: front ++ back).
    + exists (x :: front), back. split; [reflexivity |]. simpl. by rewrite P.
Qed.

End FirestoreFurther.

(** X5: a Firestore save that succeeds adds one record to the user's
    listing, with the result, the type and the time of the save and the
    generated id, and keeps every record that was there; the listing of any
    other user is as it was. *)
Theorem firestore_save_then_list {T : Type}
    (saving listing : Firestore.Env) (analyses : list (Firestore.Document T))
    (user other : jsstring) (analysisType : AnalysisType) (result : T)
    (before : list (Firestore.AnalysisRecord T)) :
  Firestore.fault saving = None ->
  Firestore.fault listing = None ->
  other <> user ->
  Firestore.getUserAnalyses listing analyses user = Returned before ->
  let after :=
    snd (Firestore.saveAnalysis saving analyses user analysisType result) in
  (exists l,
      Firestore.getUserAnalyses listing after user = Returned l
      /\ l ≡ₚ {| Firestore.id := Firestore.auto_id saving;
                 Firestore.userId := user;
                 Firestore.analysisType := analysisType;
                 Firestore.timestamp := Firestore.now saving;
                 Firestore.result := result |} :: before)
  /\ Firestore.getUserAnalyses listing after other
     = Firestore.getUserAnalyses listing analyses other.
Proof.
  intros S L N B after. subst after.
  unfold Firestore.saveAnalysis, Firestore.addDoc. rewrite S. simpl.
  revert B. unfold Firestore.getUserAnalyses, Firestore.getDocs. rewrite L.
  simpl. intros [= <-].
  destruct (place_split
              {| Firestore.doc_id := Firestore.auto_id saving;
                 Firestore.data_userId := user;
                 Firestore.data_analysisType := analysisType;
                 Firestore.data_timestamp := Firestore.now saving;
                 Firestore.data_result := result |} analyses)
    as (front & back & -> & ->).
  split.
  - eexists. split; [reflexivity |].
    rewrite !filter_app, filter_cons_True by reflexivity.
    rewrite !fmap_app, fmap_cons. simpl.
    by rewrite Permutation_middle.
  - rewrite !filter_app, filter_cons_False by (simpl; congruence).
    reflexivity.
Qed.

Lemma firestore_save_then_list_witness :
  u2 <> u1
  /\ exists l,
      Firestore.getUserAnalyses online
        (snd (Firestore.saveAnalysis second_save
                (snd (Firestore.saveAnalysis first_save [] u1 imageAnalyses
                        (lit "eczema")))
                u1 symptomChecks (lit "migraine"))) u1
      = Returned l
      /\ length l = 2%nat.
Proof.
  assert (N : u2 <> u1) by discriminate.
  split; [exact N |].
  destruct (firestore_save_then_list (T := jsstring) second_save online
              (snd (Firestore.saveAnalysis first_save [] u1 imageAnalyses
                      (lit "eczema")))
              u1 u2 symptomChecks (lit "migraine") _
              eq_refl eq_refl N eq_refl) as [(l & L & P) _].
  exists l. split; [exact L |]. by rewrite P.
Defined.

(** * Further properties of the flows *)

Section WellFormedOutputs.

Lemma symptoms_normalized_well_formed (o : CheckSymptoms.Output) :
  exists o', CheckSymptoms.normalizeOutput o = Returned o'
             /\ symptoms_well_formed o' = true.
Proof.
  destruct o as [pc u ur sns dr imr].
  destruct pc, u, ur as [[|]|], sns, dr as [[|]|], imr;
    eexists; split; reflexivity.
Qed.

Lemma mental_health_normalized_well_formed (o : AssessMentalHealth.Output) :
  exists o', AssessMentalHealth.normalizeOutput o = Returned o'
             /\ mental_health_well_formed o' = true.
Proof.
  destruct o as [a r rs cw imr].
  destruct a as [[|]|], r, rs as [[|]|], imr; eexists; split; reflexivity.
Qed.

Lemma diet_normalized_well_formed (o : AnalyzeDiet.Output) :
  exists o', AnalyzeDiet.normalizeOutput o = Returned o'
             /\ diet_well_formed o' = true.
Proof.
  destruct o as [nb ho im pr imr].
  destruct nb as [[|]|], ho, im, pr as [[|]|], imr;
    eexists; split; reflexivity.
Qed.

Lemma image_normalized_well_formed (o : AnalyzeImage.Output) :
  exists o', AnalyzeImage.normalizeOutput o = Returned o'
             /\ image_well_formed o' = true.
Proof.
  destruct o as [a r dr imr].
  destruct a as [[|]|], r as [[|]|], dr as [[|]|], imr;
    eexists; split; reflexivity.
Qed.

Lemma voice_normalized_well_formed (o : VoiceDiagnosis.Output) :
  exists o', VoiceDiagnosis.normalizeOutput o = Returned o'
             /\ voice_well_formed o' = true.
Proof.
  destruct o as [pc cq dr imr].
  destruct pc, cq, dr as [[|]|], imr; eexists; split; reflexivity.
Qed.

End WellFormedOutputs.

(** X6: whatever the model's output lacks, what a flow returns has every
    required property, at least one specialist (or resource) and an array
    of Indian recommendations; the image flow's two texts and the diet
    flow's professional recommendation are never empty. *)
Theorem flows_return_well_formed_outputs :
  (forall o, exists o',
      CheckSymptoms.normalizeOutput o = Returned o'
      /\ symptoms_well_formed o' = true)
  /\ (forall o, exists o',
        AssessMentalHealth.normalizeOutput o = Returned o'
        /\ mental_health_well_formed o' = true)
  /\ (forall o, exists o',
        AnalyzeDiet.normalizeOutput o = Returned o'
        /\ diet_well_formed o' = true)
  /\ (forall o, exists o',
        AnalyzeImage.normalizeOutput o = Returned o'
        /\ image_well_formed o' = true)
  /\ (forall o, exists o',
        VoiceDiagnosis.normalizeOutput o = Returned o'
        /\ voice_well_formed o' = true).
Proof.
  repeat split.
  - apply symptoms_normalized_well_formed.
  - apply mental_health_normalized_well_formed.
  - apply diet_normalized_well_formed.
  - apply image_normalized_well_formed.
  - apply voice_normalized_well_formed.
Qed.

(** X7: a flow returns the model's output unchanged exactly when the
    output is well formed already; any other output comes back altered. *)
Theorem flows_alter_only_ill_formed_outputs :
  (forall o, CheckSymptoms.normalizeOutput o = Returned o
             <-> symptoms_well_formed o = true)
  /\ (forall o, AssessMentalHealth.normalizeOutput o = Returned o
                <-> mental_health_well_formed o = true)
  /\ (forall o, AnalyzeDiet.normalizeOutput o = Returned o
                <-> diet_well_formed o = true)
  /\ (forall o, AnalyzeImage.normalizeOutput o = Returned o
                <-> image_well_formed o = true)
  /\ (forall o, VoiceDiagnosis.normalizeOutput o = Returned o
                <-> voice_well_formed o = true).
Proof.
  repeat split.
  - destruct o as [pc u ur sns dr imr].
    destruct pc, u, ur as [[|]|], sns, dr as [[|]|], imr;
      first [reflexivity | intros E; discriminate E].
  - destruct o as [pc u ur sns dr imr].
    destruct pc, u, ur as [[|]|], sns, dr as [[|]|], imr;
      first [reflexivity | intros E; discriminate E].
  - destruct o as [a r rs cw imr].
    destruct a as [[|]|], r, rs as [[|]|], imr;
      first [reflexivity | intros E; discriminate E].
  - destruct o as [a r rs cw imr].
    destruct a as [[|]|], r, rs as [[|]|], imr;
      first [reflexivity | intros E; discriminate E].
  - destruct o as [nb ho im pr imr].
    destruct nb as [[|]|], ho, im, pr as [[|]|], imr;
      first [reflexivity | intros E; discriminate E].
  - destruct o as [nb ho im pr imr].
    destruct nb as [[|]|], ho, im, pr as [[|]|], imr;
      first [reflexivity | intros E; discriminate E].
  - destruct o as [a r dr imr].
    destruct a as [[|]|], r as [[|]|], dr as [[|]|], imr;
      first [reflexivity | intros E; discriminate E].
  - destruct o as [a r dr imr].
    destruct a as [[|]|], r as [[|]|], dr as [[|]|], imr;
      first [reflexivity | intros E; discriminate E].
  - destruct o as [pc cq dr imr].
    destruct pc, cq, dr as [[|]|], imr;
      first [reflexivity | intros E; discriminate E].
  - destruct o as [pc cq dr imr].
    destruct pc, cq, dr as [[|]|], imr;
      first [reflexivity | intros E; discriminate E].
Qed.

Lemma flows_alter_only_ill_formed_outputs_witness :
  VoiceDiagnosis.normalizeOutput VoiceDiagnosis.no_symptoms_output
  = Returned VoiceDiagnosis.no_symptoms_output
  /\ CheckSymptoms.normalizeOutput headache_response
     <> Returned headache_response.
Proof.
  destruct flows_alter_only_ill_formed_outputs as (S & _ & _ & _ & V).
  split.
  - apply V. reflexivity.
  - intros E. apply S in E. discriminate E.
Defined.


(** * Properties of the forms *)

(** ** [trim] *)

Lemma blank_trim (s : jsstring) : blank s = negb (truthy (trim s)).
Proof. destruct s; reflexivity. Qed.



Lemma clean_start_prefix (a b : jsstring) :
  clean_start (a ++ b) -> a <> [] -> clean_start a.
Proof. destruct a; [congruence | simpl; auto]. Qed.




(** ** The symptom form *)

Section SymptomForm.
Import SymptomChecker.


End SymptomForm.





(** X11: saving the displayed result to Firestore.  The form is not saving
    afterwards and the result stays on display.  When the backend accepts
    the document, the form counts the result as saved and the collection
    holds a document with the result, the type [symptomChecks] and the user
    id; when the backend fails, the result does not count as saved, the
    form shows ["Failed to save result: "] and the fault's message, and the
    collection is as it was. *)
Theorem symptom_form_save_over_firestore
    (backend : Firestore.Env)
    (analyses : list (Firestore.Document CheckSymptoms.Output))
    (userId : jsstring) (s : SymptomChecker.State) (r : CheckSymptoms.Output) :
  SymptomChecker.result s = Some r ->
  truthy userId = true ->
  let settled :=
    SymptomChecker.handleSaveResult
      (fun userId analysisType result store =>
         Firestore.saveAnalysis backend store userId analysisType result)
      userId s analyses in
  SymptomChecker.saving (fst settled) = false
  /\ SymptomChecker.result (fst settled) = Some r
  /\ match Firestore.fault backend with
     | None =>
         SymptomChecker.saved (fst settled) = true
         /\ SymptomChecker.error (fst settled) = SymptomChecker.error s
         /\ {| Firestore.doc_id := Firestore.auto_id backend;
               Firestore.data_userId := userId;
               Firestore.data_analysisType := symptomChecks;
               Firestore.data_timestamp := Firestore.now backend;
               Firestore.data_result := r |} ∈ snd settled
     | Some e =>
         SymptomChecker.saved (fst settled) = false
         /\ SymptomChecker.error (fst settled)
            = Some (lit "Failed to save result: "
                    ++ message_or (lit "An unexpected error occurred.") e)
         /\ snd settled = analyses
     end.
Proof.
  intros R U settled. subst settled.
  unfold SymptomChecker.handleSaveResult. rewrite R, U. simpl.
  destruct (Firestore.fault backend) as [e|] eqn:F.
  - rewrite (firestore_saveAnalysis_fault backend analyses userId
               symptomChecks r e F). simpl. by repeat split.
  - pose proof (firestore_saveAnalysis_adds backend analyses userId
                  symptomChecks r F) as A.
    destruct (Firestore.saveAnalysis backend analyses userId symptomChecks r)
      as [settlement after] eqn:E.
    assert (settlement = Returned tt) as ->.
    { revert E. unfold Firestore.saveAnalysis, Firestore.addDoc.
      rewrite F. simpl. by intros [= <- _]. }
    simpl in *. by repeat split.
Qed.

Lemma symptom_form_save_over_firestore_witness :
  SymptomChecker.saved
    (fst (SymptomChecker.handleSaveResult
            (fun userId analysisType result store =>
               Firestore.saveAnalysis offline store userId analysisType result)
            u1
            (SymptomChecker.setResult (Some headache_response)
               SymptomChecker.initial)
            []))
  = false.
Proof.
  destruct (symptom_form_save_over_firestore offline [] u1
              (SymptomChecker.setResult (Some headache_response)
                 SymptomChecker.initial)
              headache_response eq_refl eq_refl) as (_ & _ & S & _).
  exact S.
Defined.

(** ** The image form *)

Section ImageForm.
Import ImageAnalysis.

Lemma photo_is_image_step (s : State) (e : Event) :
  photo_is_image s -> photo_is_image (step s e).
Proof.
  intros P. destruct e as [[[name dataUri|]|] | value | analyzeImage userId];
    unfold step.
  - unfold handleImageChange, photo_is_image.
    destruct (starts_with (lit "data:image/") dataUri) eqn:I;
      cbn [negb photoDataUri toast setPhotoDataUri].
    + intros d E. injection E as <-. exact I.
    + intros d E. discriminate E.
  - unfold photo_is_image. intros d E. discriminate E.
  - unfold photo_is_image. intros d E. discriminate E.
  - exact P.
  - unfold handleSubmit, submit_begin.
    destruct (negb (truthy (trim userId))); [exact P |].
    destruct (negb (truthy_str (photoDataUri (clearState s)))
              || negb (truthy (description (clearState s))));
      [exact P |].
    unfold submit_settle. destruct (analyzeImage _); exact P.
Qed.

Lemma photo_is_image_run (events : list Event) (s : State) :
  photo_is_image s -> photo_is_image (foldl step s events).
Proof.
  revert s. induction events as [|e events IH]; intros s P; [exact P |].
  apply IH, photo_is_image_step, P.
Qed.

End ImageForm.

(** X12: whatever files are chosen, texts typed and analyses submitted, the
    photo the image form holds is the data URI of an image; and a submit
    that reaches the analysis sends such a photo, a description that is not
    empty and a user id that is not blank. *)
Theorem image_form_sends_images_only
    (events : list ImageAnalysis.Event) (userId : jsstring) :
  let s := foldl ImageAnalysis.step ImageAnalysis.initial events in
  photo_is_image s
  /\ match ImageAnalysis.submit_begin userId s with
     | ImageAnalysis.InFlight _ input =>
         starts_with (lit "data:image/") (AnalyzeImage.photoDataUri input)
         = true
         /\ truthy (AnalyzeImage.description input) = true
         /\ AnalyzeImage.userId input = userId
         /\ blank userId = false
     | ImageAnalysis.Dismissed _ => True
     end.
Proof.
  intros s.
  assert (P : photo_is_image s).
  { apply photo_is_image_run. intros d E. discriminate E. }
  split; [exact P |].
  unfold ImageAnalysis.submit_begin. rewrite blank_trim.
  destruct (truthy (trim userId)); cbn [negb]; [| exact I].
  change (ImageAnalysis.photoDataUri (ImageAnalysis.clearState s))
    with (ImageAnalysis.photoDataUri s).
  change (ImageAnalysis.description (ImageAnalysis.clearState s))
    with (ImageAnalysis.description s).
  destruct (ImageAnalysis.photoDataUri s) as [[|c d]|] eqn:Ph;
    cbn [truthy_str negb orb]; try exact I.
  destruct (truthy (ImageAnalysis.description s)) eqn:D;
    cbn [negb]; [| exact I].
  cbn [AnalyzeImage.photoDataUri AnalyzeImage.description AnalyzeImage.userId
       default].
  repeat split; try assumption. by apply P.
Qed.

(** A PDF is turned away and clears the photo chosen before. *)
Example image_form_rejects_pdf :
  ImageAnalysis.photoDataUri
    (foldl ImageAnalysis.step ImageAnalysis.initial
       [ImageAnalysis.ChooseFile
          (Some (ImageAnalysis.Loaded (lit "rash.png")
                   (lit "data:image/png;base64,iVBORw0KGgo=")));
        ImageAnalysis.ChooseFile
          (Some (ImageAnalysis.Loaded (lit "scan.pdf")
                   (lit "data:application/pdf;base64,JVBERi0=")))])
  = None.
Proof. reflexivity. Qed.

(** ** The dashboard *)

Lemma dashboard_view_cases {R : Type}
    (getUserAnalyses : jsstring -> outcome (list R))
    (userId : option jsstring) (s : Dashboard.State R) :
  match Dashboard.render userId (Dashboard.effect getUserAnalyses userId s) with
  | Dashboard.Spinner => False
  | Dashboard.UserIdMissing => truthy_str userId = false
  | Dashboard.ErrorLoadingDashboard message =>
      message = lit "Failed to load analysis history."
      /\ exists u e, userId = Some u /\ getUserAnalyses u = Raised e
  | Dashboard.NoHistory =>
      exists u, userId = Some u /\ getUserAnalyses u = Returned []
  | Dashboard.History shown =>
      shown <> []
      /\ exists u, userId = Some u /\ getUserAnalyses u = Returned shown
  end.
Proof.
  unfold Dashboard.render, Dashboard.effect.
  destruct userId as [[|c u]|]; cbn -[lit]; try reflexivity.
  destruct (getUserAnalyses (c :: u)) as [[|r data]|e] eqn:G; cbn -[lit].
  - by exists (c :: u).
  - split; [discriminate |]. by exists (c :: u).
  - change (truthy_str (Some (lit "Failed to load analysis history.")))
      with true.
    cbn -[lit]. split; [reflexivity |]. by exists (c :: u), e.
Qed.


(** X14: the dashboard over the two backends, for a [userId] parameter
    that is not empty.  Over localStorage it never shows the error card: a
    history it shows is ordered newest first, and when [getItem] fails it
    shows the "no history" card.  Over Firestore a fault of the query shows
    the error card, and a history it shows holds records of that user
    only. *)
Theorem dashboard_over_backends {T : Type} `{LocalStorage.Json T}
    (env : LocalStorage.Env) (localStorage : gmap jsstring jsstring)
    (backend : Firestore.Env) (analyses : list (Firestore.Document T))
    (user : jsstring)
    (local : Dashboard.State (LocalStorage.AnalysisRecord T))
    (remote : Dashboard.State (Firestore.AnalysisRecord T)) :
  truthy user = true ->
  let local_view :=
    Dashboard.render (Some user)
      (Dashboard.effect (LocalStorage.getUserAnalyses env localStorage)
         (Some user) local) in
  let remote_view :=
    Dashboard.render (Some user)
      (Dashboard.effect (Firestore.getUserAnalyses backend analyses)
         (Some user) remote) in
  match local_view with
  | Dashboard.NoHistory => True
  | Dashboard.History shown =>
      newest_first_order LocalStorage.timestamp shown
      /\ LocalStorage.getItem_fault env = None
  | _ => False
  end
  /\ match Firestore.fault backend with
     | Some _ =>
         remote_view
         = Dashboard.ErrorLoadingDashboard
             (lit "Failed to load analysis history.")
     | None =>
         match remote_view with
         | Dashboard.NoHistory => True
         | Dashboard.History shown =>
             forall r, r ∈ shown -> Firestore.userId r = user
         | _ => False
         end
     end.
Proof.
  intros U local_view remote_view.
  pose proof (dashboard_view_cases
                (LocalStorage.getUserAnalyses env localStorage) (Some user)
                local) as L.
  pose proof (dashboard_view_cases
                (Firestore.getUserAnalyses backend analyses) (Some user)
                remote) as F.
  fold local_view in L. fold remote_view in F. split.
  - destruct local_view as [| |message| |shown].
    + exact L.
    + destruct user; [discriminate U | discriminate L].
    + destruct L as (_ & u & e & [= <-] & G).
      destruct (getUserAnalyses_returns env localStorage user) as [l G'].
      congruence.
    + exact I.
    + destruct L as (N & u & [= <-] & G). split.
      * by eapply getUserAnalyses_newest_first.
      * destruct (LocalStorage.getItem_fault env) as [e|] eqn:Fa;
          [| reflexivity].
        rewrite (getUserAnalyses_fault env localStorage user e Fa) in G.
        congruence.
  - destruct (Firestore.fault backend) as [e|] eqn:Fa.
    + subst remote_view. unfold Dashboard.effect.
      destruct user as [|c u]; [discriminate U |].
      cbn -[lit Firestore.getUserAnalyses].
      rewrite (firestore_getUserAnalyses_fault backend analyses (c :: u) e Fa).
      reflexivity.
    + destruct remote_view as [| |message| |shown].
      * exact F.
      * destruct user; [discriminate U | discriminate F].
      * destruct F as (_ & u & e & [= <-] & G).
        destruct (firestore_getUserAnalyses_online backend analyses user Fa)
          as (l & G' & _).
        congruence.
      * exact I.
      * destruct F as (_ & u & [= <-] & G). intros r.
        by eapply firestore_getUserAnalyses_userId.
Qed.

Lemma dashboard_over_backends_witness :
  Dashboard.render (Some u1)
    (Dashboard.effect
       (Firestore.getUserAnalyses (T := jsstring) offline []) (Some u1)
       Dashboard.initial)
  = Dashboard.ErrorLoadingDashboard (lit "Failed to load analysis history.")
  /\ Dashboard.render (Some u1)
       (Dashboard.effect
          (LocalStorage.getUserAnalyses (T := jsstring) locked_browser ∅)
          (Some u1) Dashboard.initial)
     <> Dashboard.ErrorLoadingDashboard
          (lit "Failed to load analysis history.").
Proof.
  destruct (dashboard_over_backends (T := jsstring) locked_browser ∅ offline []
              u1 Dashboard.initial Dashboard.initial eq_refl) as [L F].
  split; [exact F |].
  intros E. rewrite E in L. exact L.
Defined.

(** ** The home page *)

Section HomePage.
Import Home.




End HomePage.



(** ** The details of a saved result *)

Section Details.
Import ResultDetails.

Lemma elem_of_when_text (block : jsstring -> Block) (x : option jsstring)
    (b : Block) :
  b ∈ when_text block x
  <-> exists text, x = Some text /\ truthy text = true /\ b = block text.
Proof.
  destruct x as [[|c text]|]; simpl.
  - rewrite elem_of_nil. split; [tauto |]. by intros (t & [= <-] & ? & _).
  - rewrite list_elem_of_singleton. split.
    + intros ->. by exists (c :: text).
    + by intros (t & [= <-] & _ & ->).
  - rewrite elem_of_nil. split; [tauto |]. by intros (t & ? & _).
Qed.

Lemma elem_of_when_items {A : Type} (block : list A -> Block)
    (x : option (list A)) (b : Block) :
  b ∈ when_items block x
  <-> exists items, x = Some items /\ items <> [] /\ b = block items.
Proof.
  destruct x as [[|item items]|]; simpl.
  - rewrite elem_of_nil. split; [tauto |]. by intros (t & [= <-] & ? & _).
  - rewrite list_elem_of_singleton. split.
    + intros ->. by exists (item :: items).
    + by intros (t & [= <-] & _ & ->).
  - rewrite elem_of_nil. split; [tauto |]. by intros (t & ? & _).
Qed.

(** The blocks, one group after the other. *)
Lemma elem_of_details (result : Result) (type : AnalysisType) (b : Block) :
  b ∈ AnalysisResultDetails result type
  <-> b ∈ when_text Assessment (assessment result)
      \/ b ∈ when_items PotentialConditions (potentialConditions result)
      \/ (exists level,
             urgency result = Some level
             /\ b = Urgency level
                      match level with
                      | CheckSymptoms.High => variant_destructive
                      | CheckSymptoms.Medium => variant_secondary
                      | CheckSymptoms.Low => variant_default
                      end
                      (if truthy_str (urgencyReasoning result)
                       then urgencyReasoning result else None))
      \/ b ∈ match
                 or_list
                   (or_list (recommendations result)
                      (suggestedNextSteps result))
                   (improvementSuggestions result)
               with
               | Some (Text (c :: text)) => [Recommendations [c :: text]]
               | Some (Items (item :: items)) =>
                   [Recommendations (item :: items)]
               | _ => []
               end
      \/ b ∈ when_text NutritionalBreakdown (nutritionalBreakdown result)
      \/ b ∈ when_items HealthObservations (healthObservations result)
      \/ b ∈ when_items ClarifyingQuestions (clarifyingQuestions result)
      \/ b ∈ when_items Specialists
               (or_else_list (doctorRecommendations result)
                  (resourceSuggestions result))
      \/ (type = dietaryAnalyses
          /\ b ∈ when_text ProfessionalConsultation
                   (professionalRecommendation result))
      \/ b ∈ when_text CrisisWarning (crisisWarning result)
      \/ b ∈ when_items IndianRecommendations
               (indianMedicalRecommendations result).
Proof.
  unfold AnalysisResultDetails. rewrite !elem_of_app.
  assert (U : forall blocks : list Block,
             b ∈ match urgency result with
                 | Some level =>
                     [Urgency level
                        match level with
                        | CheckSymptoms.High => variant_destructive
                        | CheckSymptoms.Medium => variant_secondary
                        | CheckSymptoms.Low => variant_default
                        end
                        (if truthy_str (urgencyReasoning result)
                         then urgencyReasoning result else None)]
                 | None => []
                 end
             <-> exists level,
                 urgency result = Some level
                 /\ b = Urgency level
                          match level with
                          | CheckSymptoms.High => variant_destructive
                          | CheckSymptoms.Medium => variant_secondary
                          | CheckSymptoms.Low => variant_default
                          end
                          (if truthy_str (urgencyReasoning result)
                           then urgencyReasoning result else None)).
  { intros _. destruct (urgency result) as [level|].
    - rewrite list_elem_of_singleton. split.
      + intros ->. by exists level.
      + by intros (l & [= <-] & ->).
    - rewrite elem_of_nil. split; [tauto |]. by intros (l & ? & _). }
  rewrite (U []). clear U.
  assert (D : b ∈ match type with
                  | dietaryAnalyses =>
                      when_text ProfessionalConsultation
                        (professionalRecommendation result)
                  | _ => []
                  end
              <-> type = dietaryAnalyses
                  /\ b ∈ when_text ProfessionalConsultation
                           (professionalRecommendation result)).
  { destruct type; try (rewrite elem_of_nil; split; [tauto | by intros [? _]]).
    tauto. }
  rewrite D. clear D.
  tauto.
Qed.

(** What a flow returns is well formed, whatever the model answered. *)
Lemma checkSymptomsFlow_well_formed prompt input o :
  CheckSymptoms.checkSymptomsFlow prompt input = Returned o ->
  symptoms_well_formed o = true.
Proof.
  unfold CheckSymptoms.checkSymptomsFlow.
  destruct (prompt input) as [[r|]|e]; simpl; try discriminate.
  destruct (symptoms_normalized_well_formed r) as (o' & -> & W).
  by intros [= <-].
Qed.

Lemma assessMentalHealthFlow_well_formed prompt input o :
  AssessMentalHealth.assessMentalHealthFlow prompt input = Returned o ->
  mental_health_well_formed o = true.
Proof.
  unfold AssessMentalHealth.assessMentalHealthFlow.
  destruct (prompt input) as [[r|]|e]; simpl; try discriminate.
  destruct (mental_health_normalized_well_formed r) as (o' & -> & W).
  by intros [= <-].
Qed.

Lemma analyzeDietFlow_well_formed prompt input o :
  AnalyzeDiet.analyzeDietFlow prompt input = Returned o ->
  diet_well_formed o = true.
Proof.
  unfold AnalyzeDiet.analyzeDietFlow. cbv zeta.
  destruct (prompt _) as [[r|]|e]; simpl; try discriminate.
  destruct (diet_normalized_well_formed r) as (o' & -> & W).
  by intros [= <-].
Qed.

Lemma analyzeImageFlow_well_formed prompt input o :
  AnalyzeImage.analyzeImageFlow prompt input = Returned o ->
  image_well_formed o = true.
Proof.
  unfold AnalyzeImage.analyzeImageFlow.
  destruct (prompt input) as [[r|]|e]; simpl; try discriminate.
  destruct (image_normalized_well_formed r) as (o' & -> & W).
  by intros [= <-].
Qed.

Lemma voiceDiagnosisFlow_well_formed prompt input o :
  VoiceDiagnosis.voiceDiagnosisFlow prompt input = Returned o ->
  voice_well_formed o = true.
Proof.
  unfold VoiceDiagnosis.voiceDiagnosisFlow.
  destruct (VoiceDiagnosis.promptInput input) as [sent|].
  - destruct (prompt sent) as [[r|]|e]; simpl; try discriminate.
    destruct (voice_normalized_well_formed r) as (o' & -> & W).
    by intros [= <-].
  - by intros [= <-].
Qed.

(** The list of specialists of a result is shown when it has an entry. *)
Lemma specialists_shown (result : Result) (type : AnalysisType) :
  has_entry
    (or_else_list (doctorRecommendations result) (resourceSuggestions result))
  = true ->
  exists item items,
    Specialists (item :: items) ∈ AnalysisResultDetails result type.
Proof.
  intros H.
  destruct (or_else_list _ _) as [[|item items]|] eqn:E; try discriminate H.
  exists item, items. apply elem_of_details. do 7 right. left.
  rewrite E. apply elem_of_when_items. by exists (item :: items).
Qed.

(** A hypothesis [M] that puts a block in a group of another kind. *)
Local Ltac other_group M :=
  solve
    [ by destruct M as (? & _ & _ & ?)
    | by destruct M as (? & _ & ?)
    | by destruct M as (_ & ? & _ & _ & ?)
    | destruct (or_list _ _) as [[[|]|[|]]|];
      rewrite ?elem_of_nil, ?list_elem_of_singleton in M; by try tauto ].

Local Ltac other_groups M := repeat (destruct M as [M|M]; [other_group M |]).

(** Which blocks of a kind there are, for the kinds one group gives. *)
Lemma specialists_block (result : Result) (type : AnalysisType) items :
  Specialists items ∈ AnalysisResultDetails result type
  <-> or_else_list (doctorRecommendations result) (resourceSuggestions result)
      = Some items
      /\ items <> [].
Proof.
  rewrite elem_of_details, !elem_of_when_text, !elem_of_when_items. split.
  - intros M. other_groups M.
    destruct M as [M|M]; [| other_groups M; other_group M].
    destruct M as (l & E & N & [= ->]). by split.
  - intros [E N]. do 7 right. left. by exists items.
Qed.

Lemma crisis_warning_block (result : Result) (type : AnalysisType) text :
  CrisisWarning text ∈ AnalysisResultDetails result type
  <-> crisisWarning result = Some text /\ truthy text = true.
Proof.
  rewrite elem_of_details, !elem_of_when_text, !elem_of_when_items. split.
  - intros M. other_groups M.
    destruct M as [M|M]; [| other_groups M; other_group M].
    destruct M as (l & E & N & [= ->]). by split.
  - intros [E N]. do 9 right. left. by exists text.
Qed.

Lemma professional_consultation_block (result : Result) (type : AnalysisType)
    text :
  ProfessionalConsultation text ∈ AnalysisResultDetails result type
  <-> type = dietaryAnalyses
      /\ professionalRecommendation result = Some text
      /\ truthy text = true.
Proof.
  rewrite elem_of_details, !elem_of_when_text, !elem_of_when_items. split.
  - intros M. other_groups M.
    destruct M as [M|M]; [| other_groups M; other_group M].
    destruct M as (T & l & E & N & [= ->]). by repeat split.
  - intros (T & E & N). do 8 right. left. split; [exact T |]. by exists text.
Qed.

Lemma assessMentalHealth_normalize_crisisWarning (o o' : AssessMentalHealth.Output) :
  AssessMentalHealth.normalizeOutput o = Returned o' ->
  AssessMentalHealth.crisisWarning o' = AssessMentalHealth.crisisWarning o.
Proof.
  destruct o as [a r rs cw imr].
  destruct a as [[|]|], r, rs as [[|]|], imr; by intros [= <-].
Qed.

(** X16: whatever the model answered, the result a flow returns is shown
    on the dashboard with its list of specialists, which has an entry: for
    the symptom, image and voice flows the doctor recommendations, for the
    mental-health flow the resource suggestions.  A dietary result has no
    such list; under its own type it is shown with the professional
    recommendation, which is not empty. *)
Theorem flow_results_show_whom_to_consult (type : AnalysisType) :
  (forall prompt input o,
      CheckSymptoms.checkSymptomsFlow prompt input = Returned o ->
      exists item items,
        Specialists (item :: items)
        ∈ AnalysisResultDetails (of_symptoms o) type
        /\ CheckSymptoms.doctorRecommendations o = Some (item :: items))
  /\ (forall prompt input o,
         AnalyzeImage.analyzeImageFlow prompt input = Returned o ->
         exists item items,
           Specialists (item :: items)
           ∈ AnalysisResultDetails (of_image o) type
           /\ AnalyzeImage.doctorRecommendations o = Some (item :: items))
  /\ (forall prompt input o,
         VoiceDiagnosis.voiceDiagnosisFlow prompt input = Returned o ->
         exists item items,
           Specialists (item :: items)
           ∈ AnalysisResultDetails (of_voice o) type
           /\ VoiceDiagnosis.doctorRecommendations o = Some (item :: items))
  /\ (forall prompt input o,
         AssessMentalHealth.assessMentalHealthFlow prompt input = Returned o ->
         exists item items,
           Specialists (item :: items)
           ∈ AnalysisResultDetails (of_mental_health o) type
           /\ AssessMentalHealth.resourceSuggestions o
              = Some (item :: items))
  /\ (forall prompt input o,
         AnalyzeDiet.analyzeDietFlow prompt input = Returned o ->
         (forall items,
             Specialists items ∉ AnalysisResultDetails (of_diet o) type)
         /\ exists text,
             ProfessionalConsultation text
             ∈ AnalysisResultDetails (of_diet o) dietaryAnalyses
             /\ text <> []).
Proof.
  repeat split.
  - intros prompt input o F.
    apply checkSymptomsFlow_well_formed in F. revert F.
    unfold symptoms_well_formed.
    destruct (CheckSymptoms.doctorRecommendations o) as [[|item items]|] eqn:E;
      rewrite ?andb_false_r; try discriminate; intros _.
    exists item, items. split; [| reflexivity].
    apply specialists_block. simpl. by rewrite E.
  - intros prompt input o F.
    apply analyzeImageFlow_well_formed in F. revert F.
    unfold image_well_formed.
    destruct (AnalyzeImage.doctorRecommendations o) as [[|item items]|] eqn:E;
      rewrite ?andb_false_r; try discriminate; intros _.
    exists item, items. split; [| reflexivity].
    apply specialists_block. simpl. by rewrite E.
  - intros prompt input o F.
    apply voiceDiagnosisFlow_well_formed in F. revert F.
    unfold voice_well_formed.
    destruct (VoiceDiagnosis.doctorRecommendations o) as [[|item items]|] eqn:E;
      rewrite ?andb_false_r; try discriminate; intros _.
    exists item, items. split; [| reflexivity].
    apply specialists_block. simpl. by rewrite E.
  - intros prompt input o F.
    apply assessMentalHealthFlow_well_formed in F. revert F.
    unfold mental_health_well_formed.
    destruct (AssessMentalHealth.resourceSuggestions o)
      as [[|item items]|] eqn:E;
      rewrite ?andb_false_r; try discriminate; intros _.
    exists item, items. split; [| reflexivity].
    apply specialists_block. simpl. by rewrite E.
  - intros items M. apply specialists_block in M. by destruct M as [M _].
  - apply analyzeDietFlow_well_formed in H. revert H.
    unfold diet_well_formed.
    destruct (AnalyzeDiet.professionalRecommendation o) as [[|c text]|] eqn:E;
      rewrite ?andb_false_r; try discriminate; intros _.
    exists (c :: text). split; [| done].
    apply professional_consultation_block. simpl. by rewrite E.
Qed.

Lemma flow_results_show_whom_to_consult_witness :
  exists o,
    CheckSymptoms.checkSymptomsFlow (answering (Some headache_response))
      {| CheckSymptoms.symptoms := lit "Headache for a week";
         CheckSymptoms.userId := u1 |}
    = Returned o
    /\ exists item items,
        Specialists (item :: items)
        ∈ AnalysisResultDetails (of_symptoms o) symptomChecks
        /\ CheckSymptoms.doctorRecommendations o = Some (item :: items).
Proof.
  eexists. split; [reflexivity |].
  exact (proj1 (flow_results_show_whom_to_consult symptomChecks)
           (answering (Some headache_response))
           {| CheckSymptoms.symptoms := lit "Headache for a week";
              CheckSymptoms.userId := u1 |}
           _ eq_refl).
Defined.

(** X17: no section of the details is shown empty: every text shown is a
    non-empty text and every list shown has an entry, for any stored
    result and any type, well formed or not. *)
Theorem details_show_no_empty_section (result : Result)
    (type : AnalysisType) :
  forallb filled (AnalysisResultDetails result type) = true.
Proof.
  apply forallb_forall. intros b M. apply list_elem_of_In in M.
  apply elem_of_details in M.
  rewrite !elem_of_when_text, !elem_of_when_items in M.
  assert (L : forall (A : Type) (items : list A),
             items <> [] -> negb (Nat.eqb (length items) 0) = true).
  { intros A [|item items] N; [done | reflexivity]. }
  repeat
    (destruct M as [M|M];
     [solve
        [ destruct M as (x & _ & N & ->); simpl; by auto
        | destruct M as (x & _ & ->); reflexivity
        | destruct M as (_ & x & _ & N & ->); simpl; by auto
        | destruct (or_list _ _) as [[[|]|[|]]|];
          rewrite ?elem_of_nil, ?list_elem_of_singleton in M;
          try tauto; by subst b ] |]).
  destruct M as (x & _ & N & ->). simpl. by auto.
Qed.

(** X18: a crisis warning reaches the dashboard exactly as the model gave
    it: the result the mental-health flow returns is shown with the
    warning [text] if and only if the model's answer had [text] as its
    crisis warning and [text] is not empty; the flow neither adds one nor
    drops one.  The results of the other four flows are never shown with a
    crisis warning. *)
Theorem crisis_warning_shown_as_given (type : AnalysisType) (text : jsstring) :
  (forall prompt input answer o,
      prompt input = Returned (Some answer) ->
      AssessMentalHealth.assessMentalHealthFlow prompt input = Returned o ->
      CrisisWarning text ∈ AnalysisResultDetails (of_mental_health o) type
      <-> AssessMentalHealth.crisisWarning answer = Some text /\ text <> [])
  /\ (forall o, CrisisWarning text
                ∉ AnalysisResultDetails (of_symptoms o) type)
  /\ (forall o, CrisisWarning text ∉ AnalysisResultDetails (of_image o) type)
  /\ (forall o, CrisisWarning text ∉ AnalysisResultDetails (of_voice o) type)
  /\ (forall o, CrisisWarning text ∉ AnalysisResultDetails (of_diet o) type).
Proof.
  split; [| repeat split; intros o M; apply crisis_warning_block in M;
            by destruct M as [M _]].
  intros prompt input answer o P F.
  unfold AssessMentalHealth.assessMentalHealthFlow in F. rewrite P in F.
  simpl in F. apply assessMentalHealth_normalize_crisisWarning in F.
  rewrite crisis_warning_block. simpl. rewrite F.
  destruct text; simpl; split; intros [E N]; by split.
Qed.

Lemma crisis_warning_shown_as_given_witness :
  exists o,
    AssessMentalHealth.assessMentalHealthFlow
      (answering
         (Some (AssessMentalHealth.set_crisisWarning
                  (Some (lit "Call a helpline now.")) stress_response)))
      {| AssessMentalHealth.description := lit "Overwhelmed";
         AssessMentalHealth.userId := u1 |}
    = Returned o
    /\ CrisisWarning (lit "Call a helpline now.")
       ∈ AnalysisResultDetails (of_mental_health o) mentalHealthAssessments.
Proof.
  eexists. split; [reflexivity |].
  refine (proj2 (proj1 (crisis_warning_shown_as_given mentalHealthAssessments
                          (lit "Call a helpline now."))
                   (answering
                      (Some (AssessMentalHealth.set_crisisWarning
                               (Some (lit "Call a helpline now."))
                               stress_response)))
                   {| AssessMentalHealth.description := lit "Overwhelmed";
                      AssessMentalHealth.userId := u1 |}
                   _ _ eq_refl eq_refl) _).
  split; [reflexivity | discriminate].
Defined.

End Details.
